(** * djchat: the server-list filter pipeline of [src/server/views.py]

    A shallow embedding of [ServerListViewSet.get_filtered_queryset],
    [filter_by_server_id] and [limit_results], together with the parts of
    Python, Django's ORM and Django REST framework that these three methods
    call: the builtin [int], [QueryDict.get], [QuerySet.filter],
    [QuerySet.annotate], [QuerySet.exists], queryset slicing, and the two
    exception classes the view raises.  What the source does not fix is a
    parameter, the [Environment]: the builtin [int], the order in which the
    database returns the rows of a join or a GROUP BY, and the largest LIMIT
    it takes.  The development also covers the page
    size of [ServerListPagination] ([src/server/pagination.py]), the parameter
    list of [server_list_docs] ([src/server/schema.py]) and
    [validate_image_file_extension] ([src/server/validators.py]) with
    [posixpath.splitext]. *)

From Stdlib Require Import ZArith List String Ascii Bool Lia.
From stdpp Require Import base option gmap sets list strings.

Local Open Scope string_scope.
Local Open Scope Z_scope.

(** ** Python: the builtin [int] on a [str]

    The view is verified for any [int]: it is a field of the [Environment]
    below, and no theorem about the view depends on what it computes.

    [Py.int_ascii] is CPython's [int] on a [str] of ASCII characters, and it
    runs the examples, which are all ASCII.  It strips surrounding white space
    (tab, line feed, vertical tab, form feed, carriage return, space), reads an
    optional sign and then decimal digits, single underscores being allowed
    between two digits; any other shape raises [ValueError] ([None] here), and
    so does a literal of more digits than [sys.int_max_str_digits], 4300 by
    default.  On a [str] with other characters CPython first rewrites Unicode
    decimal digits and white space to ASCII; that table is not modelled, and
    [int_ascii] stands for [int] on ASCII strings only. *)

Module Py.

Definition isspace (c : ascii) : bool :=
  let n := Z.of_nat (nat_of_ascii c) in
  ((9 <=? n) && (n <=? 13)) || (n =? 32).

Definition digit (c : ascii) : option Z :=
  let n := Z.of_nat (nat_of_ascii c) in
  if (48 <=? n) && (n <=? 57) then Some (n - 48) else None.

Fixpoint lstrip (s : string) : string :=
  match s with
  | String c s' => if isspace c then lstrip s' else s
  | EmptyString => EmptyString
  end.

Fixpoint all_space (s : string) : bool :=
  match s with
  | String c s' => isspace c && all_space s'
  | EmptyString => true
  end.

(** [scan s acc n need] reads [digit (["_"] digit)*]: [acc] is the value read
    so far, [n] the number of digits, [need] says that a digit must come next
    (at the start and after an underscore).  It returns the value, the number
    of digits and the unread rest. *)
Fixpoint scan (s : string) (acc : Z) (n : Z) (need : bool)
  : option (Z * Z * string) :=
  match s with
  | EmptyString => if need then None else Some (acc, n, EmptyString)
  | String c s' =>
      match digit c with
      | Some d => scan s' (10 * acc + d) (n + 1) false
      | None =>
          if need then None
          else if Ascii.eqb c "_"%char then scan s' acc n true
          else Some (acc, n, s)
      end
  end.

Definition int_max_str_digits : Z := 4300.

Definition unsigned (s : string) : option Z :=
  match scan s 0 0 true with
  | Some (v, n, rest) =>
      if all_space rest && (n <=? int_max_str_digits) then Some v else None
  | None => None
  end.

Definition int_ascii (s : string) : option Z :=
  match lstrip s with
  | String "-"%char s' => Z.opp <$> unsigned s'
  | String "+"%char s' => unsigned s'
  | s' => unsigned s'
  end.

(** Truth value of a [str]: the empty string is false. *)
Definition truthy (s : string) : bool :=
  match s with
  | EmptyString => false
  | String _ _ => true
  end.

End Py.

(** ** Data model

    A [Server] row with its category name (the target of the
    [category__name] lookup) and the user ids of its [member] many-to-many
    relation.  The relation's table holds each (server, user) pair at most
    once, hence a set. *)

Record Server := mkServer {
  server_id : Z;
  server_name : string;
  server_category : string;
  server_member : gset Z
}.

(** [request.user]: an anonymous user or an authenticated one with its id. *)
Inductive User :=
| AnonymousUser
| AuthenticatedUser (user_id : Z).

Definition is_authenticated (u : User) : bool :=
  match u with
  | AnonymousUser => false
  | AuthenticatedUser _ => true
  end.

(** [request.query_params] is read with [.get(key)] only: a finite map from
    parameter names to raw string values, [None] for an absent key. *)
Record Request := mkRequest {
  query_params : gmap string string;
  user : User
}.

(** ** Exceptions and the calls a run makes

    [AuthenticationFailed] and [ValidationError] are the two REST framework
    exception classes the view raises; [ValueError] is the Python exception
    that [int] and the ORM raise and the view catches. *)

Inductive exn :=
| ValueError
| AuthenticationFailed
| ValidationError (detail : string).

(** The class of a raised exception, and the HTTP status the REST framework
    gives its class ([ValueError] is no API exception and has none). *)
Inductive exn_class := ValueErrorClass | AuthenticationFailedClass | ValidationErrorClass.

Definition class_of (e : exn) : exn_class :=
  match e with
  | ValueError => ValueErrorClass
  | AuthenticationFailed => AuthenticationFailedClass
  | ValidationError _ => ValidationErrorClass
  end.

Definition status_code (e : exn) : option Z :=
  match e with
  | ValueError => None
  | AuthenticationFailed => Some 401
  | ValidationError _ => Some 400
  end.

(** Every call the view makes into the ORM or to [int], in program order. *)
Inductive Call :=
| call_filter_category (name : string)
| call_filter_member (uid : Z)
| call_annotate_num_members
| call_filter_id (raw : string)
| call_exists
| call_int (raw : string)
| call_slice (stop : Z).

(** How a run ends: with a value, with an exception, or with a queryset that
    is returned but cannot be run: the database refuses its query, here a
    LIMIT beyond the largest it takes. *)
Inductive outcome (A : Type) :=
| Return (a : A)
| Raise (e : exn)
| Unevaluable.
Arguments Return {A} a.
Arguments Raise {A} e.
Arguments Unevaluable {A}.

(** A run: the calls made, then how it ends. *)
Definition M (A : Type) : Type := list Call * outcome A.

Definition ret {A} (a : A) : M A := ([], Return a).
Definition raise {A} (e : exn) : M A := ([], Raise e).

Definition bind {A B} (m : M A) (k : A -> M B) : M B :=
  match m with
  | (t, Return a) => let '(t', r) := k a in ((t ++ t')%list, r)
  | (t, Raise e) => (t, Raise e)
  | (t, Unevaluable) => (t, Unevaluable)
  end.

(** [called c r]: record the call [c], whose result is [r] ([None] when the
    callee raises [ValueError]). *)
Definition called {A} (c : Call) (r : option A) : M A :=
  match r with
  | Some a => ([c], Return a)
  | None => ([c], Raise ValueError)
  end.

(** [ran c o]: record the call [c], which ends as [o]. *)
Definition ran {A} (c : Call) (o : outcome A) : M A := ([c], o).

(** [try: body except ValueError: handler]. *)
Definition try_except_ValueError {A} (body : M A) (handler : M A) : M A :=
  match body with
  | (t, Raise ValueError) => let '(t', r) := handler in ((t ++ t')%list, r)
  | _ => body
  end.

#[export] Instance M_ret : MRet M := @ret.
#[export] Instance M_bind : MBind M := fun A B k m => bind m k.

Definition calls {A} (m : M A) : list Call := fst m.
Definition result {A} (m : M A) : outcome A := snd m.

(** ** Django's ORM on the [Server] table

    A queryset is kept as the rows it selects.  The database does not change
    while a request is served, so the lazy queryset and its rows are the same
    thing here.

    Each row carries [row_member], the rows of the [member] join that the
    query's conditions so far leave for it.  At first these are all the
    server's members.  [filter(member=uid)] joins the membership table under
    [WHERE user_id = uid] and leaves the caller's row only; a later
    [annotate(Count("member"))] reuses that join, so that the query reads

      SELECT server.*, COUNT(m.user_id) AS num_members
      FROM server INNER JOIN server_member m ON m.server_id = server.id
      WHERE m.user_id = uid GROUP BY server.id

    and counts under the condition (Django's aggregation guide, "Order of
    annotate() and filter() clauses": a filter that precedes the annotation
    constrains the objects the annotation is computed over).  Without an
    earlier filter on [member] the annotation joins the table itself and
    counts all the server's rows.  [num_members] is the annotation, present
    once [annotate] has run.

    The view sets no [order_by].  A query on the table alone returns the rows
    in table order, but the join of [filter(member=...)] and the GROUP BY of
    [annotate] return theirs in an order the database chooses: some
    rearrangement of the rows, a parameter of the model. *)

Record Row := mkRow {
  row_server : Server;
  row_member : gset Z;
  num_members : option nat
}.

(** An order the database may return rows in: a rearrangement. *)
Record Reorder := mkReorder {
  reorder :> list Row -> list Row;
  reorder_perm : forall rows, reorder rows ≡ₚ rows
}.

(** What the view runs on, beside the table: Python's [int]; the orders in
    which the database returns the rows of a join on the membership table
    (which may depend on the user joined on) and of a GROUP BY; and the
    largest LIMIT the database takes, a 64-bit integer at least
    ([2 ^ 63 - 1] for SQLite and PostgreSQL, [2 ^ 64 - 1] for MySQL). *)
Record Environment := mkEnvironment {
  int : string -> option Z;
  join_order : Z -> Reorder;
  group_order : Reorder;
  max_limit : Z;
  max_limit_least : 2 ^ 63 - 1 <= max_limit
}.

Module QuerySet.

(** [Server.objects.all()] *)
Definition all (table : list Server) : list Row :=
  (fun s => mkRow s (server_member s) None) <$> table.

(** [qs.filter(category__name=name)] *)
Definition filter_category_name (name : string) (qs : list Row) : list Row :=
  filter (fun r => server_category (row_server r) = name) qs.

(** [qs.filter(member=uid)]: an inner join on the membership table under the
    condition [user_id = uid], in the order of the join. *)
Definition filter_member (env : Environment) (uid : Z) (qs : list Row)
  : list Row :=
  join_order env uid
    ((fun r => mkRow (row_server r) (row_member r ∩ {[uid]}) (num_members r))
       <$> filter (fun r => uid ∈ row_member r) qs).

(** [qs.annotate(num_members=Count("member"))]: per server, the number of
    joined membership rows, in the order of the GROUP BY. *)
Definition annotate_num_members (env : Environment) (qs : list Row)
  : list Row :=
  group_order env
    ((fun r => mkRow (row_server r) (row_member r) (Some (size (row_member r))))
       <$> qs).

(** [qs.filter(id=raw)]: the field prepares the value with [int] and raises
    [ValueError] when that fails. *)
Definition filter_id (env : Environment) (raw : string) (qs : list Row)
  : option (list Row) :=
  n ← int env raw;
  Some (filter (fun r => server_id (row_server r) = n) qs).

(** [qs.exists()] *)
Definition exists_ (qs : list Row) : bool :=
  match qs with
  | [] => false
  | _ :: _ => true
  end.

(** [qs[:stop]]: the first [stop] rows.  [QuerySet.__getitem__] refuses a
    negative bound with [ValueError] ("Negative indexing is not supported.");
    a bound beyond [max_limit] makes a queryset whose query the database
    refuses when it is run. *)
Definition slice (env : Environment) (stop : Z) (qs : list Row)
  : outcome (list Row) :=
  if stop <? 0 then Raise ValueError
  else if max_limit env <? stop then Unevaluable
  else Return (take (Z.to_nat stop) qs).

End QuerySet.

(** ** The view: [ServerListViewSet] *)

Module ServerListViewSet.

Section View.

(** Python's [int] and the database's orders. *)
Variable env : Environment.

(** The rows of the [Server] table, behind [queryset = Server.objects.all()]. *)
Variable objects : list Server.

Definition queryset : list Row := QuerySet.all objects.

Definition filter_by_server_id (request : Request) (queryset : list Row)
    (by_serverid : string) : M (list Row) :=
  if negb (is_authenticated (user request)) then raise AuthenticationFailed
  else
    queryset ←
      try_except_ValueError
        (queryset ← called (call_filter_id by_serverid)
                      (QuerySet.filter_id env by_serverid queryset);
         found ← called call_exists (Some (QuerySet.exists_ queryset));
         if negb found
         then raise (ValidationError
                       ("Server with id-" +:+ by_serverid +:+ " not found"))
         else ret queryset)
        (raise (ValidationError "Server id must be an integer"));
    ret queryset.

Definition limit_results (queryset : list Row) (qty : string) : M (list Row) :=
  queryset ←
    try_except_ValueError
      (stop ← called (call_int qty) (int env qty);
       ran (call_slice stop) (QuerySet.slice env stop queryset))
      (raise (ValidationError "qty must be an integer"));
  ret queryset.

(** [x == "true"] on the result of [query_params.get]. *)
Definition eq_str_true (x : option string) : bool :=
  bool_decide (x = Some "true").

(** [if x:] on the result of [query_params.get]: present and non-empty. *)
Definition provided (x : option string) : option string :=
  match x with
  | Some s => if Py.truthy s then Some s else None
  | None => None
  end.

Definition get_filtered_queryset (request : Request) : M (list Row) :=
  let queryset := queryset in
  let category := query_params request !! "category" in
  let qty := query_params request !! "qty" in
  let by_user := eq_str_true (query_params request !! "by_user") in
  let by_serverid := query_params request !! "by_serverid" in
  let with_num_members := eq_str_true (query_params request !! "with_num_members") in
  queryset ←
    match provided category with
    | Some category =>
        called (call_filter_category category)
          (Some (QuerySet.filter_category_name category queryset))
    | None => ret queryset
    end;
  queryset ←
    (if by_user then
       match user request with
       | AuthenticatedUser uid =>
           called (call_filter_member uid)
             (Some (QuerySet.filter_member env uid queryset))
       | AnonymousUser => raise AuthenticationFailed
       end
     else ret queryset);
  queryset ←
    (if with_num_members then
       called call_annotate_num_members
         (Some (QuerySet.annotate_num_members env queryset))
     else ret queryset);
  queryset ←
    match provided by_serverid with
    | Some by_serverid => filter_by_server_id request queryset by_serverid
    | None => ret queryset
    end;
  queryset ←
    match provided qty with
    | Some qty => limit_results queryset qty
    | None => ret queryset
    end;
  ret queryset.

End View.

End ServerListViewSet.

Import ServerListViewSet.

(** ** Names for the failures, and sample data *)

(** The three [ValidationError]s the view raises, by the text of their
    [detail]. *)
Definition not_found (by_serverid : string) : exn :=
  ValidationError ("Server with id-" +:+ by_serverid +:+ " not found").
Definition invalid_server_id : exn :=
  ValidationError "Server id must be an integer".
Definition invalid_qty : exn :=
  ValidationError "qty must be an integer".

(** Before the by-user step the run has made at most the category call. *)
Definition category_call (request : Request) : list Call :=
  match provided (query_params request !! "category") with
  | Some category => [call_filter_category category]
  | None => []
  end.

(** The servers that the category and by-user steps keep: those in the
    requested category, if one is given, that count the caller among their
    members, if [by_user] is true. *)
Definition selects (request : Request) (s : Server) : Prop :=
  (forall category,
      provided (query_params request !! "category") = Some category ->
      server_category s = category) /\
  (query_params request !! "by_user" = Some "true" ->
   forall uid, user request = AuthenticatedUser uid -> uid ∈ server_member s).

(** The request with one parameter dropped. *)
Definition without (key : string) (request : Request) : Request :=
  mkRequest (delete key (query_params request)) (user request).

(** The rows that reach the member count: the table narrowed by category,
    then by membership of an authenticated caller. *)
Definition narrowed (env : Environment) (objects : list Server)
    (request : Request) : list Row :=
  let kept :=
    match provided (query_params request !! "category") with
    | Some category =>
        QuerySet.filter_category_name category (QuerySet.all objects)
    | None => QuerySet.all objects
    end in
  if eq_str_true (query_params request !! "by_user") then
    match user request with
    | AuthenticatedUser uid => QuerySet.filter_member env uid kept
    | AnonymousUser => kept
    end
  else kept.

(** The same rows after the optional annotation. *)
Definition counted (env : Environment) (objects : list Server)
    (request : Request) : list Row :=
  if eq_str_true (query_params request !! "with_num_members")
  then QuerySet.annotate_num_members env (narrowed env objects request)
  else narrowed env objects request.

(** The calls each later step adds to a run that passes it. *)
Definition by_user_call (request : Request) : list Call :=
  if eq_str_true (query_params request !! "by_user") then
    match user request with
    | AuthenticatedUser uid => [call_filter_member uid]
    | AnonymousUser => []
    end
  else [].

Definition annotate_call (request : Request) : list Call :=
  if eq_str_true (query_params request !! "with_num_members")
  then [call_annotate_num_members] else [].

Definition by_serverid_calls (request : Request) : list Call :=
  match provided (query_params request !! "by_serverid") with
  | Some by_serverid => [call_filter_id by_serverid; call_exists]
  | None => []
  end.

Definition qty_calls (env : Environment) (request : Request) : list Call :=
  match provided (query_params request !! "qty") with
  | Some qty =>
      match int env qty with
      | Some n => [call_int qty; call_slice n]
      | None => [call_int qty]
      end
  | None => []
  end.

(** Environments for the examples: [int_ascii] with the rows left in the
    order they have, and with every join and GROUP BY turning them round. *)
Definition same_order : Reorder :=
  {| reorder := fun rows => rows;
     reorder_perm := fun rows => Permutation_refl rows |}.

Definition turned_round : Reorder :=
  {| reorder := fun rows => reverse rows;
     reorder_perm := fun rows => reverse_Permutation rows |}.

Definition sample : Environment :=
  {| int := Py.int_ascii;
     join_order := fun _ => same_order;
     group_order := same_order;
     max_limit := 2 ^ 63 - 1;
     max_limit_least := Z.le_refl (2 ^ 63 - 1) |}.

Definition sample_turned : Environment :=
  {| int := Py.int_ascii;
     join_order := fun _ => turned_round;
     group_order := turned_round;
     max_limit := 2 ^ 63 - 1;
     max_limit_least := Z.le_refl (2 ^ 63 - 1) |}.

(** Five servers, used where a statement needs a table. *)
Definition five_servers : list Server :=
  [ mkServer 1 "alpha" "X" {[ 10; 11; 12 ]};
    mkServer 2 "beta" "Y" {[ 10 ]};
    mkServer 3 "gamma" "X" ∅;
    mkServer 4 "delta" "X" {[ 10; 11 ]};
    mkServer 5 "epsilon" "Z" {[ 12 ]} ].

Definition params (l : list (string * string)) : gmap string string :=
  list_to_map l.

(** ** The documented query parameters, [src/server/schema.py]

    [server_list_docs] documents five query parameters, each with a name and
    an OpenAPI type. *)

Inductive OpenApiTypes := STR | INT | BOOL.

Definition server_list_docs : list (string * OpenApiTypes) :=
  [ ("category", STR); ("qty", INT); ("by_user", BOOL);
    ("by_serverid", INT); ("with_num_members", BOOL) ].

(** The conditions a request puts on a server: its category, the caller's
    membership, its id.  A parameter that is absent, empty or not true puts
    none. *)
Definition category_ok (request : Request) (s : Server) : bool :=
  match provided (query_params request !! "category") with
  | Some category => bool_decide (server_category s = category)
  | None => true
  end.

Definition member_ok (request : Request) (s : Server) : bool :=
  if eq_str_true (query_params request !! "by_user") then
    match user request with
    | AuthenticatedUser uid => bool_decide (uid ∈ server_member s)
    | AnonymousUser => true
    end
  else true.

Definition id_ok (env : Environment) (request : Request) (s : Server) : bool :=
  match provided (query_params request !! "by_serverid") with
  | Some by_serverid => bool_decide (int env by_serverid = Some (server_id s))
  | None => true
  end.

Definition wanted (env : Environment) (request : Request) (s : Server)
  : bool :=
  category_ok request s && member_ok request s && id_ok env request s.

(** The row the first three steps make of a server they keep. *)
Definition row_for (request : Request) (s : Server) : Row :=
  let joined :=
    if eq_str_true (query_params request !! "by_user") then
      match user request with
      | AuthenticatedUser uid => server_member s ∩ {[uid]}
      | AnonymousUser => server_member s
      end
    else server_member s in
  mkRow s joined
    (if eq_str_true (query_params request !! "with_num_members")
     then Some (size joined) else None).

(** The steps behind the member count, as one continuation. *)
Definition after_count (env : Environment) (request : Request)
    (queryset : list Row) : M (list Row) :=
  bind (match provided (query_params request !! "by_serverid") with
        | Some by_serverid =>
            filter_by_server_id env request queryset by_serverid
        | None => ret queryset
        end)
    (fun queryset =>
       bind (match provided (query_params request !! "qty") with
             | Some qty => limit_results env queryset qty
             | None => ret queryset
             end)
         (fun queryset => ret queryset)).

(** Two runs end alike: with the same failure, or with results that [R]
    relates. *)
Definition alike {A} (R : A -> A -> Prop) (o o' : outcome A) : Prop :=
  match o, o' with
  | Return a, Return a' => R a a'
  | Raise e, Raise e' => e = e'
  | Unevaluable, Unevaluable => True
  | _, _ => False
  end.

(** A row with the count the annotation gives it. *)
Definition annotated (r : Row) : Row :=
  mkRow (row_server r) (row_member r) (Some (size (row_member r))).

(** ** [src/server/pagination.py]: [ServerListPagination]

    The class sets three attributes of REST framework's
    [PageNumberPagination]; the page size of a request is then computed by
    that class's [get_page_size], through [_positive_int]. *)

Module ServerListPagination.

Definition page_size : Z := 10.
Definition page_size_query_param : string := "page_size".
Definition max_page_size : Z := 100.

(** [_positive_int(integer_string, strict, cutoff)]: [int], refused with
    [ValueError] ([None]) below zero, and at zero when [strict]; cut to
    [cutoff] when one is set. *)
Definition positive_int (env : Environment) (integer_string : string)
    (strict : bool) (cutoff : option Z) : option Z :=
  n ← int env integer_string;
  if (n <? 0) || ((n =? 0) && strict) then None
  else
    match cutoff with
    | Some c => if c =? 0 then Some n else Some (Z.min n c)
    | None => Some n
    end.

(** [get_page_size(request)]: the value of the [page_size] parameter read by
    [_positive_int(..., strict=True, cutoff=max_page_size)]; a missing
    parameter ([KeyError]) or a refused one ([ValueError]) gives the default
    [page_size]. *)
Definition get_page_size (env : Environment) (request : Request) : Z :=
  match query_params request !! page_size_query_param with
  | Some raw =>
      match positive_int env raw true (Some max_page_size) with
      | Some n => n
      | None => page_size
      end
  | None => page_size
  end.

End ServerListPagination.

(** ** Python strings and [posixpath.splitext], for [validators.py] *)

Module Str.

(** [c in s] *)
Fixpoint contains (c : ascii) (s : string) : bool :=
  match s with
  | EmptyString => false
  | String a s' => Ascii.eqb a c || contains c s'
  end.

(** [s.rfind(c)]: the index of the last [c] in [s], or -1. *)
Fixpoint rfind (c : ascii) (s : string) : Z :=
  match s with
  | EmptyString => -1
  | String a s' =>
      let r := rfind c s' in
      if 0 <=? r then r + 1 else if Ascii.eqb a c then 0 else -1
  end.

(** [s[:i]] and [s[i:]] for an index that is not negative. *)
Fixpoint slice_to (i : nat) (s : string) : string :=
  match i, s with
  | O, _ => EmptyString
  | S _, EmptyString => EmptyString
  | S i', String a s' => String a (slice_to i' s')
  end.

Fixpoint slice_from (i : nat) (s : string) : string :=
  match i, s with
  | O, _ => s
  | S _, EmptyString => EmptyString
  | S i', String _ s' => slice_from i' s'
  end.

(** [s.lower()] on ASCII letters; no other character lowers to an ASCII
    letter of the extensions compared below. *)
Definition lower_char (c : ascii) : ascii :=
  let n := nat_of_ascii c in
  if (65 <=? n)%nat && (n <=? 90)%nat then ascii_of_nat (n + 32) else c.

Fixpoint lower (s : string) : string :=
  match s with
  | EmptyString => EmptyString
  | String a s' => String (lower_char a) (lower s')
  end.

(** Is [s] made of dots only? *)
Fixpoint only_dots (s : string) : bool :=
  match s with
  | EmptyString => true
  | String a s' => Ascii.eqb a "." && only_dots s'
  end.

End Str.

Module PosixPath.

(** The loop of [genericpath._splitext] that skips the leading dots of the
    file name: from [filenameIndex], over [count] characters, is there one
    that is not a dot? *)
Fixpoint has_name (p : string) (filenameIndex count : nat) : bool :=
  match count with
  | O => false
  | S count' =>
      match String.get filenameIndex p with
      | Some c =>
          if Ascii.eqb c "." then has_name p (S filenameIndex) count' else true
      | None => true
      end
  end.

(** [os.path.splitext(p)], POSIX flavour: the extension starts at the last
    dot, if that dot comes after the last slash and after a character of the
    file name that is not a dot. *)
Definition splitext (p : string) : string * string :=
  let sepIndex := Str.rfind "/" p in
  let dotIndex := Str.rfind "." p in
  if (sepIndex <? dotIndex)
     && has_name p (Z.to_nat (sepIndex + 1))
          (Z.to_nat (dotIndex - (sepIndex + 1)))
  then (Str.slice_to (Z.to_nat dotIndex) p, Str.slice_from (Z.to_nat dotIndex) p)
  else (p, EmptyString).

(** A directory prefix: nothing, or a path that ends with a slash. *)
Definition dir_prefix (dir : string) : Prop :=
  dir = EmptyString \/ exists d, dir = d +:+ "/".

End PosixPath.

(** ** [src/server/validators.py] *)

Module validators.

(** A validator returns, or raises Django's [ValidationError] with a
    message. *)
Inductive validation :=
| Passes
| Fails (message : string).

Definition valid_extensions : list string := [".jpg"; ".jpeg"; ".png"; ".gif"].

(** [validate_image_file_extension(value)], on [value.name]. *)
Definition validate_image_file_extension (name : string) : validation :=
  let ext := snd (PosixPath.splitext name) in
  if bool_decide (Str.lower ext ∈ valid_extensions) then Passes
  else Fails "Unsupported file extension".

End validators.

(** * Properties *)

(** ** [int_ascii] on sample literals *)

Example int_2 : Py.int_ascii "2" = Some 2.
Proof. reflexivity. Qed.

Example int_padded : Py.int_ascii " +1_000 " = Some 1000.
Proof. reflexivity. Qed.

Example int_negative : Py.int_ascii "-1" = Some (-1).
Proof. reflexivity. Qed.

Example int_abc : Py.int_ascii "abc" = None.
Proof. reflexivity. Qed.

Example int_empty : Py.int_ascii "" = None.
Proof. reflexivity. Qed.

Example int_float : Py.int_ascii "1.5" = None.
Proof. reflexivity. Qed.

Example int_underscores :
  Py.int_ascii "5_" = None /\ Py.int_ascii "5__5" = None /\
  Py.int_ascii "_5" = None.
Proof. repeat split; reflexivity. Qed.

(** The file separators 28 to 31 are no white space for [int]. *)
Example int_file_separator :
  Py.int_ascii (String (ascii_of_nat 28) "2") = None.
Proof. reflexivity. Qed.

(** ** Runs *)

Section Runs.
Context {A B : Type}.

Lemma result_ret (a : A) : result (ret a) = Return a.
Proof. reflexivity. Qed.

Lemma result_raise (e : exn) : result (raise e : M A) = Raise e.
Proof. reflexivity. Qed.

Lemma bind_Raise (m : M A) (k : A -> M B) (e : exn) :
  result m = Raise e -> bind m k = (calls m, Raise e).
Proof. destruct m as [t [a | e' |]]; simpl; intros; simplify_eq; done. Qed.

Lemma bind_Return (m : M A) (k : A -> M B) (a : A) :
  result m = Return a ->
  bind m k = ((calls m ++ calls (k a))%list, result (k a)).
Proof.
  destruct m as [t [a' | e' |]]; simpl; intros; simplify_eq.
  by destruct (k a).
Qed.

(** A run that ends in an exception has made no call of its continuation. *)
Lemma calls_bind_Raise (m : M A) (k : A -> M B) (e : exn) :
  result m = Raise e -> calls (bind m k) = calls m.
Proof. intros H. by rewrite (bind_Raise _ _ _ H). Qed.

(** A run that returns has passed its first part, and made its calls first. *)
Lemma bind_Return_inv (m : M A) (k : A -> M B) (b : B) :
  result (bind m k) = Return b ->
  exists a, result m = Return a /\ result (k a) = Return b /\
            calls (bind m k) = (calls m ++ calls (k a))%list.
Proof.
  destruct m as [t [a | e |]]; simpl; [|discriminate..].
  intros H. exists a. split; [reflexivity|]. by destruct (k a).
Qed.

Lemma bind_Raise_inv (m : M A) (k : A -> M B) (e : exn) :
  result (bind m k) = Raise e ->
  result m = Raise e \/
  exists a, result m = Return a /\ result (k a) = Raise e.
Proof.
  destruct m as [t [a | e' |]]; simpl;
    [|intros [= ->]; by left | discriminate].
  intros H. right. exists a. split; [reflexivity|]. by destruct (k a).
Qed.

Lemma bind_Unevaluable_inv (m : M A) (k : A -> M B) :
  result (bind m k) = Unevaluable ->
  result m = Unevaluable \/
  exists a, result m = Return a /\ result (k a) = Unevaluable.
Proof.
  destruct m as [t [a | e' |]]; simpl; [|discriminate | by left].
  intros H. right. exists a. split; [reflexivity|]. by destruct (k a).
Qed.
End Runs.

Lemma eq_str_true_spec (x : option string) :
  eq_str_true x = true <-> x = Some "true".
Proof. unfold eq_str_true. by rewrite bool_decide_eq_true. Qed.

Lemma eq_str_true_false (x : option string) :
  eq_str_true x = false <-> x <> Some "true".
Proof. unfold eq_str_true. by rewrite bool_decide_eq_false. Qed.

Lemma provided_Some (x : option string) (s : string) :
  provided x = Some s <-> x = Some s /\ s <> "".
Proof.
  destruct x as [[|c t]|]; simpl; split; intros; destruct_and?; simplify_eq; done.
Qed.

Lemma provided_None (x : option string) :
  provided x = None <-> x = None \/ x = Some "".
Proof.
  destruct x as [[|c t]|]; simpl; split; intros; destruct_or?; simplify_eq;
    auto.
Qed.

(** ** Querysets *)

Section QuerySets.
Context (env : Environment).
Implicit Types (qs : list Row) (r : Row) (s : Server) (uid n : Z).

Lemma all_servers (table : list Server) :
  row_server <$> QuerySet.all table = table.
Proof.
  induction table as [|s t IH]; [done|].
  change (s :: (row_server <$> QuerySet.all t) = s :: t). by rewrite IH.
Qed.

Lemma elem_of_all (table : list Server) r :
  r ∈ QuerySet.all table ->
  row_server r ∈ table /\ row_member r = server_member (row_server r).
Proof.
  unfold QuerySet.all. intros (s & -> & Hs)%list_elem_of_fmap. done.
Qed.

Lemma elem_of_filter_category_name name qs r :
  r ∈ QuerySet.filter_category_name name qs <->
  server_category (row_server r) = name /\ r ∈ qs.
Proof. unfold QuerySet.filter_category_name. by rewrite list_elem_of_filter. Qed.

(** Whatever order the join returns them in, the rows are the same. *)
Lemma filter_member_perm uid qs :
  QuerySet.filter_member env uid qs
  ≡ₚ (fun r => mkRow (row_server r) (row_member r ∩ {[uid]}) (num_members r))
       <$> filter (fun r => uid ∈ row_member r) qs.
Proof. unfold QuerySet.filter_member. apply reorder_perm. Qed.

Lemma annotate_num_members_perm qs :
  QuerySet.annotate_num_members env qs
  ≡ₚ (fun r => mkRow (row_server r) (row_member r) (Some (size (row_member r))))
       <$> qs.
Proof. unfold QuerySet.annotate_num_members. apply reorder_perm. Qed.

Lemma elem_of_filter_member uid qs r :
  r ∈ QuerySet.filter_member env uid qs ->
  exists r0, r0 ∈ qs /\ uid ∈ row_member r0 /\
             row_server r = row_server r0 /\
             row_member r = row_member r0 ∩ {[uid]} /\
             num_members r = num_members r0.
Proof.
  rewrite filter_member_perm.
  intros (r0 & -> & [Hin Hr0]%list_elem_of_filter)%list_elem_of_fmap.
  exists r0. done.
Qed.

Lemma elem_of_annotate_num_members qs r :
  r ∈ QuerySet.annotate_num_members env qs ->
  exists r0, r0 ∈ qs /\ row_server r = row_server r0 /\
             row_member r = row_member r0 /\
             num_members r = Some (size (row_member r0)).
Proof.
  rewrite annotate_num_members_perm.
  intros (r0 & -> & Hr0)%list_elem_of_fmap. exists r0. done.
Qed.

(** The annotation keeps the servers selected, in the order of the GROUP
    BY. *)
Lemma annotate_num_members_servers qs :
  row_server <$> QuerySet.annotate_num_members env qs ≡ₚ row_server <$> qs.
Proof.
  rewrite annotate_num_members_perm. by rewrite <- list_fmap_compose.
Qed.

Lemma length_annotate_num_members qs :
  length (QuerySet.annotate_num_members env qs) = length qs.
Proof.
  rewrite (Permutation_length (annotate_num_members_perm qs)).
  apply length_fmap.
Qed.

Lemma elem_of_filter_id raw qs qs' r :
  QuerySet.filter_id env raw qs = Some qs' ->
  r ∈ qs' <-> int env raw = Some (server_id (row_server r)) /\ r ∈ qs.
Proof.
  unfold QuerySet.filter_id. destruct (int env raw) as [n|]; simpl; [|done].
  intros [= <-]. rewrite list_elem_of_filter.
  split; intros [H1 H2]; split; congruence.
Qed.

Lemma filter_id_None raw qs :
  QuerySet.filter_id env raw qs = None <-> int env raw = None.
Proof. unfold QuerySet.filter_id. by destruct (int env raw). Qed.

Lemma exists_true qs : QuerySet.exists_ qs = true <-> exists r, r ∈ qs.
Proof.
  destruct qs as [|r qs]; simpl; split; try done.
  - intros [r Hr]. by apply not_elem_of_nil in Hr.
  - intros _. exists r. apply list_elem_of_here.
Qed.

Lemma exists_false qs : QuerySet.exists_ qs = false <-> qs = [].
Proof. by destruct qs. Qed.

(** The existence check does not see the order. *)
Lemma exists_perm qs qs' :
  qs ≡ₚ qs' -> QuerySet.exists_ qs = QuerySet.exists_ qs'.
Proof.
  intros Hp. destruct qs as [|r qs], qs' as [|r' qs']; try reflexivity.
  - by apply Permutation_nil_cons in Hp.
  - symmetry in Hp. by apply Permutation_nil_cons in Hp.
Qed.

Lemma slice_in_range n qs :
  0 <= n <= max_limit env ->
  QuerySet.slice env n qs = Return (take (Z.to_nat n) qs).
Proof.
  intros Hn. unfold QuerySet.slice.
  destruct (n <? 0) eqn:E1; [apply Z.ltb_lt in E1; lia|].
  destruct (max_limit env <? n) eqn:E2; [apply Z.ltb_lt in E2; lia|].
  reflexivity.
Qed.

Lemma slice_negative n qs : n < 0 -> QuerySet.slice env n qs = Raise ValueError.
Proof.
  intros Hn. unfold QuerySet.slice.
  destruct (n <? 0) eqn:E1; [reflexivity | apply Z.ltb_ge in E1; lia].
Qed.

Lemma slice_beyond n qs :
  max_limit env < n -> QuerySet.slice env n qs = Unevaluable.
Proof.
  intros Hn. unfold QuerySet.slice.
  pose proof (max_limit_least env) as Hleast.
  destruct (n <? 0) eqn:E1; [apply Z.ltb_lt in E1; lia|].
  destruct (max_limit env <? n) eqn:E2;
    [reflexivity | apply Z.ltb_ge in E2; lia].
Qed.
End QuerySets.

(** ** The quantity limit, [limit_results] *)

Lemma limit_results_int_fails
    (env : Environment) (qs : list Row) (qty : string) :
  int env qty = None ->
  limit_results env qs qty
  = ([call_int qty], Raise (ValidationError "qty must be an integer")).
Proof. intros H. unfold limit_results, called. rewrite H. reflexivity. Qed.

Lemma limit_results_in_range
    (env : Environment) (qs : list Row) (qty : string) (n : Z) :
  int env qty = Some n -> 0 <= n <= max_limit env ->
  limit_results env qs qty
  = ([call_int qty; call_slice n], Return (take (Z.to_nat n) qs)).
Proof.
  intros H Hn. unfold limit_results, called, ran.
  rewrite H. simpl. rewrite (slice_in_range _ _ _ Hn). reflexivity.
Qed.

Lemma limit_results_negative
    (env : Environment) (qs : list Row) (qty : string) (n : Z) :
  int env qty = Some n -> n < 0 ->
  limit_results env qs qty
  = ([call_int qty; call_slice n],
     Raise (ValidationError "qty must be an integer")).
Proof.
  intros H Hn. unfold limit_results, called, ran.
  rewrite H. simpl. rewrite (slice_negative _ _ _ Hn). reflexivity.
Qed.

Lemma limit_results_beyond
    (env : Environment) (qs : list Row) (qty : string) (n : Z) :
  int env qty = Some n -> max_limit env < n ->
  limit_results env qs qty = ([call_int qty; call_slice n], Unevaluable).
Proof.
  intros H Hn. unfold limit_results, called, ran.
  rewrite H. simpl. rewrite (slice_beyond _ _ _ Hn). reflexivity.
Qed.

(** C4, as stated, fails: a negative [qty] is integer-coercible and
    non-positive, yet [limit_results] returns no slice for it; the ORM refuses
    the negative bound and the step raises. *)
Lemma limit_results_negative_qty_raises :
  int sample "-1" = Some (-1) /\
  length (QuerySet.all five_servers) = 5%nat /\
  ~ (exists rows,
        result (limit_results sample (QuerySet.all five_servers) "-1")
        = Return rows) /\
  result (limit_results sample (QuerySet.all five_servers) "-1")
  = Raise (ValidationError "qty must be an integer").
Proof.
  split; [reflexivity|]. split; [reflexivity|].
  rewrite (limit_results_negative sample _ "-1" (-1)); [|reflexivity|lia].
  split; [|reflexivity]. intros [rows Hrows]. discriminate Hrows.
Qed.

(** C4, amended: for a [qty] that [int] reads as an integer from 0 to the
    largest LIMIT of the database, [limit_results] returns, without raising,
    the first [min qty length] records of the collection in their order:
    nothing for zero, the whole collection when [qty] reaches its length.  A
    negative [qty] is not sliced: the step raises.  A [qty] beyond the largest
    LIMIT gives no records either: the queryset cannot be run. *)
Theorem limit_results_slice
    (env : Environment) (qs : list Row) (qty : string) (n : Z) :
  int env qty = Some n ->
  (0 <= n <= max_limit env ->
     result (limit_results env qs qty) = Return (take (Z.to_nat n) qs) /\
     length (take (Z.to_nat n) qs) = Nat.min (Z.to_nat n) (length qs) /\
     (exists rest, qs = (take (Z.to_nat n) qs ++ rest)%list)) /\
  (n = 0 -> result (limit_results env qs qty) = Return []) /\
  (Z.of_nat (length qs) <= n <= max_limit env ->
   result (limit_results env qs qty) = Return qs) /\
  (n < 0 -> exists e, result (limit_results env qs qty) = Raise e) /\
  (max_limit env < n ->
   forall rows, result (limit_results env qs qty) <> Return rows).
Proof.
  intros Hint. repeat split.
  - by rewrite (limit_results_in_range _ _ _ _ Hint H).
  - apply length_take.
  - exists (drop (Z.to_nat n) qs). symmetry. apply take_drop.
  - intros ->. rewrite (limit_results_in_range _ _ _ 0 Hint); [reflexivity|].
    pose proof (max_limit_least env). lia.
  - intros Hlen. rewrite (limit_results_in_range _ _ _ n Hint); [|lia].
    simpl. f_equal. apply take_ge. lia.
  - intros Hneg. eexists.
    by rewrite (limit_results_negative _ _ _ _ Hint Hneg).
  - intros Hbig rows. by rewrite (limit_results_beyond _ _ _ _ Hint Hbig).
Qed.

(** [qty="2"] on five records: exactly the first two, in order. *)
Lemma limit_results_slice_witness :
  int sample "2" = Some 2 /\
  result (limit_results sample (QuerySet.all five_servers) "2")
  = Return (take 2 (QuerySet.all five_servers)) /\
  (row_server <$> take 2 (QuerySet.all five_servers)) = take 2 five_servers.
Proof.
  split; [reflexivity|].
  split; [|reflexivity].
  destruct (limit_results_slice sample (QuerySet.all five_servers) "2" 2)
    as [H _]; [reflexivity|].
  destruct H as [H _]; [done|]. exact H.
Defined.

(** [qty="9223372036854775808"], one more than a database of 64-bit LIMITs
    takes: neither records nor an error of the view. *)
Example limit_results_beyond_64_bits :
  int sample "9223372036854775808" = Some (2 ^ 63) /\
  limit_results sample (QuerySet.all five_servers) "9223372036854775808"
  = ([call_int "9223372036854775808"; call_slice (2 ^ 63)], Unevaluable).
Proof. split; reflexivity. Qed.
(** ** The pipeline, [get_filtered_queryset] *)

Ltac unfold_view :=
  unfold get_filtered_queryset, filter_by_server_id, limit_results, queryset,
    calls, result, mbind, M_bind, bind, called, ran, ret, raise,
    try_except_ValueError.

Ltac split_cases := repeat (case_match; simplify_eq/=).

(** C8: a boolean query parameter is true exactly when its raw value is the
    string ["true"]; ["True"], ["1"], the empty string and an absent parameter
    are false.  Seen on the pipeline: alone in the request of an anonymous
    caller, [by_user] leads to [AuthenticationFailed] exactly for ["true"],
    and [with_num_members] leads to the annotation call exactly for
    ["true"]. *)
Theorem boolean_parameter_true_literal
    (env : Environment) (objects : list Server) (u : User) (raw : option string)
    :
  (eq_str_true raw = true <-> raw = Some "true") /\
  eq_str_true (Some "True") = false /\
  eq_str_true (Some "1") = false /\
  eq_str_true (Some "") = false /\
  eq_str_true None = false /\
  (result (get_filtered_queryset env objects
             (mkRequest (from_option (fun v => {[ "by_user" := v ]}) ∅ raw)
                        AnonymousUser))
   = Raise AuthenticationFailed <-> raw = Some "true") /\
  (call_annotate_num_members ∈
     calls (get_filtered_queryset env objects
              (mkRequest
                 (from_option (fun v => {[ "with_num_members" := v ]}) ∅ raw)
                 u))
   <-> raw = Some "true").
Proof.
  split; [apply eq_str_true_spec|]. do 4 (split; [reflexivity|]).
  split.
  - unfold_view. simpl.
    destruct raw as [v|]; simpl.
    + rewrite (lookup_singleton_ne "by_user" "category") by done.
      rewrite (lookup_singleton_ne "by_user" "qty") by done.
      rewrite (lookup_singleton_ne "by_user" "by_serverid") by done.
      rewrite (lookup_singleton_ne "by_user" "with_num_members") by done.
      rewrite lookup_singleton_eq. simpl.
      destruct (eq_str_true (Some v)) eqn:E.
      * apply eq_str_true_spec in E. done.
      * apply eq_str_true_false in E. simpl. split; [discriminate | done].
    + rewrite !lookup_empty. simpl. split; discriminate.
  - unfold_view. simpl.
    destruct raw as [v|]; simpl.
    + rewrite (lookup_singleton_ne "with_num_members" "category") by done.
      rewrite (lookup_singleton_ne "with_num_members" "qty") by done.
      rewrite (lookup_singleton_ne "with_num_members" "by_serverid") by done.
      rewrite (lookup_singleton_ne "with_num_members" "by_user") by done.
      rewrite lookup_singleton_eq. simpl.
      destruct (eq_str_true (Some v)) eqn:E.
      * apply eq_str_true_spec in E. simpl. split; [done|].
        intros _. apply list_elem_of_here.
      * apply eq_str_true_false in E. simpl.
        split; [|done]. intros H. by apply not_elem_of_nil in H.
    + rewrite !lookup_empty. simpl.
      split; [|done]. intros H. by apply not_elem_of_nil in H.
Qed.

(** C1: with [by_user] true and an anonymous caller the pipeline raises
    [AuthenticationFailed] whatever the other parameters are, and the run has
    made no call of a later step: no annotation, no id filter, no existence
    check, no [int], no slice. *)
Theorem by_user_anonymous_fails
    (env : Environment) (objects : list Server) (request : Request) :
  query_params request !! "by_user" = Some "true" ->
  user request = AnonymousUser ->
  result (get_filtered_queryset env objects request) = Raise AuthenticationFailed /\
  calls (get_filtered_queryset env objects request) = category_call request /\
  (call_annotate_num_members ∉ calls (get_filtered_queryset env objects request)) /\
  (call_exists ∉ calls (get_filtered_queryset env objects request)) /\
  (forall raw, call_filter_id raw ∉ calls (get_filtered_queryset env objects request)) /\
  (forall raw, call_int raw ∉ calls (get_filtered_queryset env objects request)) /\
  (forall n, call_slice n ∉ calls (get_filtered_queryset env objects request)).
Proof.
  intros Hby Hanon.
  assert (Hrun : get_filtered_queryset env objects request
                 = (category_call request, Raise AuthenticationFailed)).
  { unfold_view. unfold category_call. rewrite Hby, Hanon. simpl.
    by destruct (provided _). }
  rewrite Hrun. unfold calls, result, category_call. simpl.
  split; [done|]. split; [done|].
  destruct (provided _) as [category|].
  - repeat split; repeat intro;
      match goal with
      | H : _ ∈ [_] |- _ => apply list_elem_of_singleton in H; discriminate H
      end.
  - repeat split; repeat intro;
      match goal with
      | H : _ ∈ [] |- _ => by apply not_elem_of_nil in H
      end.
Qed.

Lemma by_user_anonymous_fails_witness :
  let request :=
    mkRequest (params [("category", "X"); ("by_user", "true");
                       ("with_num_members", "true"); ("by_serverid", "abc");
                       ("qty", "abc")]) AnonymousUser in
  result (get_filtered_queryset sample five_servers request) = Raise AuthenticationFailed /\
  calls (get_filtered_queryset sample five_servers request) = [call_filter_category "X"].
Proof.
  intros request.
  destruct (by_user_anonymous_fails sample five_servers request) as (Hr & Hc & _);
    [reflexivity | reflexivity |].
  split; [exact Hr | exact Hc].
Defined.

(** The id filter checks the caller before it touches its argument or the
    queryset. *)
Lemma filter_by_server_id_anonymous
    (env : Environment) (request : Request) (qs : list Row)
    (by_serverid : string) :
  user request = AnonymousUser ->
  filter_by_server_id env request qs by_serverid = ([], Raise AuthenticationFailed).
Proof. intros H. unfold filter_by_server_id. by rewrite H. Qed.

Lemma filter_by_server_id_not_integer
    (env : Environment) (request : Request) (qs : list Row)
    (by_serverid : string) (uid : Z) :
  user request = AuthenticatedUser uid ->
  int env by_serverid = None ->
  filter_by_server_id env request qs by_serverid
  = ([call_filter_id by_serverid], Raise invalid_server_id).
Proof.
  intros Hu Hi. unfold filter_by_server_id. rewrite Hu. simpl.
  apply filter_id_None with (qs := qs) in Hi. by rewrite Hi.
Qed.

Lemma filter_by_server_id_not_found
    (env : Environment) (request : Request) (qs qs' : list Row)
    (by_serverid : string) (uid : Z) :
  user request = AuthenticatedUser uid ->
  QuerySet.filter_id env by_serverid qs = Some [] ->
  filter_by_server_id env request qs by_serverid
  = ([call_filter_id by_serverid; call_exists], Raise (not_found by_serverid)).
Proof.
  intros Hu Hf. unfold filter_by_server_id. rewrite Hu. simpl. by rewrite Hf.
Qed.

Lemma filter_by_server_id_found
    (env : Environment) (request : Request) (qs qs' : list Row)
    (by_serverid : string) (uid : Z) :
  user request = AuthenticatedUser uid ->
  QuerySet.filter_id env by_serverid qs = Some qs' -> qs' <> [] ->
  filter_by_server_id env request qs by_serverid
  = ([call_filter_id by_serverid; call_exists], Return qs').
Proof.
  intros Hu Hf Hne. unfold filter_by_server_id. rewrite Hu. simpl. rewrite Hf.
  by destruct qs'.
Qed.

(** C10: an anonymous caller who supplies a non-empty [by_serverid] gets
    [AuthenticationFailed], whether or not the value is an integer or names a
    server: the run never reaches the id filter's coercion or the existence
    check. *)
Theorem by_serverid_anonymous_fails
    (env : Environment) (objects : list Server) (request : Request)
    (by_serverid : string) :
  provided (query_params request !! "by_serverid") = Some by_serverid ->
  user request = AnonymousUser ->
  result (get_filtered_queryset env objects request) = Raise AuthenticationFailed /\
  (result (get_filtered_queryset env objects request) <> Raise invalid_server_id) /\
  (result (get_filtered_queryset env objects request)
   <> Raise (not_found by_serverid)) /\
  (forall raw, call_filter_id raw ∉ calls (get_filtered_queryset env objects request)) /\
  (call_exists ∉ calls (get_filtered_queryset env objects request)).
Proof.
  intros Hid Hanon.
  assert (Hrun : exists t,
             get_filtered_queryset env objects request
             = (t, Raise AuthenticationFailed) /\
             Forall (fun c => c = call_annotate_num_members \/
                              exists name, c = call_filter_category name) t).
  { unfold_view. rewrite Hid, Hanon. simpl.
    destruct (provided (query_params request !! "category")),
      (eq_str_true (query_params request !! "by_user")),
      (eq_str_true (query_params request !! "with_num_members")); simpl;
      eexists; (split; [reflexivity|]);
      repeat first [apply Forall_nil_2 | apply Forall_cons_2; [eauto|]]. }
  destruct Hrun as (t & -> & Ht). unfold calls, result. simpl.
  rewrite Forall_forall in Ht.
  repeat split; try discriminate.
  - intros raw [H | [name H]]%Ht; discriminate H.
  - intros [H | [name H]]%Ht; discriminate H.
Qed.

Lemma by_serverid_anonymous_fails_witness :
  int sample "abc" = None /\
  result (get_filtered_queryset sample five_servers
            (mkRequest (params [("by_serverid", "abc"); ("qty", "x")])
                       AnonymousUser))
  = Raise AuthenticationFailed.
Proof.
  split; [reflexivity|].
  destruct (by_serverid_anonymous_fails sample five_servers
              (mkRequest (params [("by_serverid", "abc"); ("qty", "x")])
                         AnonymousUser) "abc") as [H _];
    [reflexivity | reflexivity | exact H].
Defined.

(** C6: for an authenticated caller, a non-empty [by_serverid] that [int]
    rejects makes the pipeline raise [ValidationError] with the detail
    "Server id must be an integer". *)
Theorem by_serverid_not_integer
    (env : Environment) (objects : list Server) (request : Request) (uid : Z)
    (by_serverid : string) :
  user request = AuthenticatedUser uid ->
  provided (query_params request !! "by_serverid") = Some by_serverid ->
  int env by_serverid = None ->
  result (get_filtered_queryset env objects request)
  = Raise (ValidationError "Server id must be an integer").
Proof.
  intros Hu Hid Hint.
  assert (Hstep : forall qs,
             filter_by_server_id env request qs by_serverid
             = ([call_filter_id by_serverid], Raise invalid_server_id))
    by (intros qs; exact (filter_by_server_id_not_integer _ _ qs _ _ Hu Hint)).
  unfold get_filtered_queryset, queryset, mbind, M_bind.
  rewrite Hid, Hu. cbv zeta.
  destruct (provided (query_params request !! "category")),
    (eq_str_true (query_params request !! "by_user")),
    (eq_str_true (query_params request !! "with_num_members"));
    unfold bind, called, ret; rewrite Hstep; reflexivity.
Qed.

Lemma by_serverid_not_integer_witness :
  int sample "abc" = None /\
  result (get_filtered_queryset sample five_servers
            (mkRequest (params [("by_serverid", "abc"); ("by_user", "true")])
                       (AuthenticatedUser 10)))
  = Raise (ValidationError "Server id must be an integer").
Proof.
  split; [reflexivity|].
  apply (by_serverid_not_integer sample five_servers _ 10 "abc"); reflexivity.
Defined.

(** Inversion of membership in the querysets the first three steps build. *)
Ltac invert_row :=
  match goal with
  | H : _ ∈ QuerySet.annotate_num_members _ _ |- _ =>
      apply elem_of_annotate_num_members in H as (? & H & ? & ? & ?)
  | H : _ ∈ QuerySet.filter_member _ _ _ |- _ =>
      apply elem_of_filter_member in H as (? & H & ? & ? & ? & ?)
  | H : _ ∈ QuerySet.filter_category_name _ _ |- _ =>
      apply elem_of_filter_category_name in H as [? H]
  | H : _ ∈ QuerySet.all _ |- _ =>
      apply elem_of_all in H as [H ?]
  end.

(** C5: for an authenticated caller and a non-empty [by_serverid] that [int]
    reads as [n], when no server kept by the category and by-user steps has
    id [n], the pipeline raises [ValidationError] with the detail
    "Server with id-{by_serverid} not found", the raw value in the middle. *)
Theorem by_serverid_not_found
    (env : Environment) (objects : list Server) (request : Request) (uid n : Z)
    (by_serverid : string) :
  user request = AuthenticatedUser uid ->
  provided (query_params request !! "by_serverid") = Some by_serverid ->
  int env by_serverid = Some n ->
  (forall s, s ∈ objects -> selects request s -> server_id s <> n) ->
  result (get_filtered_queryset env objects request)
  = Raise (ValidationError ("Server with id-" +:+ by_serverid +:+ " not found")).
Proof.
  intros Hu Hid Hint Hnone.
  assert (Hempty : forall qs,
             (forall r, r ∈ qs ->
                        row_server r ∈ objects /\ selects request (row_server r)) ->
             QuerySet.filter_id env by_serverid qs = Some []).
  { intros qs Hqs. unfold QuerySet.filter_id. rewrite Hint. simpl. f_equal.
    apply elem_of_nil_inv.
    intros r [Hr Hin]%list_elem_of_filter.
    destruct (Hqs r Hin) as [Ho Hs]. by apply (Hnone _ Ho Hs). }
  unfold_view. rewrite Hu, Hid. simpl.
  destruct (provided (query_params request !! "category")) as [c|] eqn:Hc,
    (eq_str_true (query_params request !! "by_user")) eqn:Hby,
    (eq_str_true (query_params request !! "with_num_members")); simpl.
  all: rewrite Hempty; [reflexivity|].
  all: intros r Hr; repeat invert_row.
  all: first [apply eq_str_true_spec in Hby | apply eq_str_true_false in Hby].
  all: split; [congruence|]; split; intros; congruence.
Qed.

Lemma by_serverid_not_found_witness :
  int sample "99999" = Some 99999 /\
  result (get_filtered_queryset sample five_servers
            (mkRequest (params [("by_serverid", "99999")])
                       (AuthenticatedUser 10)))
  = Raise (ValidationError "Server with id-99999 not found").
Proof.
  split; [reflexivity|].
  apply (by_serverid_not_found sample five_servers _ 10 99999 "99999");
    try reflexivity.
  intros s Hs _.
  unfold five_servers in Hs.
  repeat (apply elem_of_cons in Hs as [-> | Hs]; [simpl; lia|]).
  by apply not_elem_of_nil in Hs.
Defined.

(** Dropping a parameter from a request leaves the others as they were. *)
Lemma without_lookup_ne (request : Request) (dropped key : string) :
  dropped <> key ->
  query_params (without dropped request) !! key = query_params request !! key.
Proof. intros Hne. unfold without. simpl. by apply lookup_delete_ne. Qed.

Lemma without_lookup_eq (request : Request) (dropped : string) :
  query_params (without dropped request) !! dropped = None.
Proof. unfold without. simpl. apply lookup_delete_eq. Qed.

(** C7, as stated, fails: [qty="abc"] from an anonymous caller who also sets
    [by_user=true] ends in [AuthenticationFailed], raised two steps before the
    quantity limit. *)
Lemma bad_qty_behind_by_user :
  let request :=
    mkRequest (params [("qty", "abc"); ("by_user", "true")]) AnonymousUser in
  provided (query_params request !! "qty") = Some "abc" /\
  int sample "abc" = None /\
  result (get_filtered_queryset sample five_servers request) = Raise AuthenticationFailed /\
  (result (get_filtered_queryset sample five_servers request)
   <> Raise (ValidationError "qty must be an integer")).
Proof. repeat split; try reflexivity. discriminate. Qed.

(** C7, amended: for a non-empty [qty] that [int] rejects, the quantity limit
    raises [ValidationError] with the detail "qty must be an integer"; the
    pipeline never returns, and it raises that error whenever the steps before
    the limit succeed, that is whenever the same request without [qty]
    succeeds; so it does when [by_user] is not true or the caller is
    authenticated, and [by_serverid] is absent or empty. *)
Theorem qty_not_integer
    (env : Environment) (objects : list Server) (request : Request)
    (qty : string) :
  provided (query_params request !! "qty") = Some qty ->
  int env qty = None ->
  (forall qs, limit_results env qs qty = ([call_int qty], Raise invalid_qty)) /\
  (exists e, result (get_filtered_queryset env objects request) = Raise e) /\
  (forall rows,
      result (get_filtered_queryset env objects (without "qty" request)) = Return rows ->
      result (get_filtered_queryset env objects request)
      = Raise (ValidationError "qty must be an integer")) /\
  ((eq_str_true (query_params request !! "by_user") = true ->
    is_authenticated (user request) = true) ->
   provided (query_params request !! "by_serverid") = None ->
   result (get_filtered_queryset env objects request)
   = Raise (ValidationError "qty must be an integer")).
Proof.
  intros Hqty Hint.
  split; [intros qs; by apply limit_results_int_fails|].
  split; [|split].
  - unfold_view. rewrite Hqty, Hint. simpl. split_cases; eauto.
  - intros rows. unfold_view.
    rewrite (without_lookup_ne _ "qty" "category") by done.
    rewrite (without_lookup_ne _ "qty" "by_user") by done.
    rewrite (without_lookup_ne _ "qty" "by_serverid") by done.
    rewrite (without_lookup_ne _ "qty" "with_num_members") by done.
    rewrite without_lookup_eq.
    rewrite Hqty, Hint. simpl. split_cases; done.
  - intros Hauth Hid. unfold_view. rewrite Hqty, Hint, Hid. simpl.
    destruct (eq_str_true (query_params request !! "by_user")).
    + specialize (Hauth eq_refl). destruct (user request); [discriminate|].
      simpl. split_cases; done.
    + simpl. split_cases; done.
Qed.

Lemma qty_not_integer_witness :
  int sample "abc" = None /\
  result (get_filtered_queryset sample five_servers
            (mkRequest (params [("qty", "abc"); ("category", "X")])
                       AnonymousUser))
  = Raise (ValidationError "qty must be an integer").
Proof.
  split; [reflexivity|].
  destruct (qty_not_integer sample five_servers
              (mkRequest (params [("qty", "abc"); ("category", "X")])
                         AnonymousUser) "abc") as (_ & _ & H & _);
    [reflexivity | reflexivity |].
  eapply H. reflexivity.
Defined.

(** ** The failures of the pipeline *)

(** The view raises nothing but these four errors; no [ValueError] escapes. *)
Lemma failure_cases
    (env : Environment) (objects : list Server) (request : Request) (e : exn) :
  result (get_filtered_queryset env objects request) = Raise e ->
  e = AuthenticationFailed \/
  e = invalid_server_id \/
  e = invalid_qty \/
  exists by_serverid,
    provided (query_params request !! "by_serverid") = Some by_serverid /\
    e = not_found by_serverid.
Proof.
  unfold get_filtered_queryset, mbind, M_bind. intros H.
  apply bind_Raise_inv in H as [H | (q1 & _ & H)].
  { destruct (provided (query_params request !! "category")); discriminate H. }
  apply bind_Raise_inv in H as [H | (q2 & _ & H)].
  { destruct (eq_str_true (query_params request !! "by_user")); [|discriminate H].
    destruct (user request); [|discriminate H]. injection H as <-. by left. }
  apply bind_Raise_inv in H as [H | (q3 & _ & H)].
  { destruct (eq_str_true (query_params request !! "with_num_members"));
      discriminate H. }
  apply bind_Raise_inv in H as [H | (q4 & _ & H)].
  { destruct (provided (query_params request !! "by_serverid")) as [raw|];
      [|discriminate H].
    unfold filter_by_server_id in H.
    destruct (is_authenticated (user request)); simpl in H;
      [|injection H as <-; by left].
    destruct (QuerySet.filter_id env raw q3) as [[|r l]|]; simpl in H;
      [injection H as <- | discriminate H | injection H as <-].
    - right. right. right. by exists raw.
    - right. by left. }
  apply bind_Raise_inv in H as [H | (q5 & _ & H)]; [|discriminate H].
  destruct (provided (query_params request !! "qty")) as [qty|];
    [|discriminate H].
  destruct (int env qty) as [n|] eqn:Hint.
  - destruct (Z_lt_le_dec n 0) as [Hneg | Hpos].
    + rewrite (limit_results_negative _ _ _ _ Hint Hneg) in H.
      injection H as <-. right. right. by left.
    + destruct (Z_lt_le_dec (max_limit env) n) as [Hbig | Hok].
      * by rewrite (limit_results_beyond _ _ _ _ Hint Hbig) in H.
      * by rewrite (limit_results_in_range _ _ _ _ Hint (conj Hpos Hok)) in H.
  - rewrite (limit_results_int_fails _ _ _ Hint) in H.
    injection H as <-. right. right. by left.
Qed.

(** C3, as stated, fails: the error for a [by_serverid] that names no server
    and the error for a [qty] that is no integer are of one class,
    [ValidationError], with one status code. *)
Lemma not_found_and_invalid_share_class :
  exists e1 e2,
    result (get_filtered_queryset sample five_servers
              (mkRequest (params [("by_serverid", "99999")])
                         (AuthenticatedUser 10))) = Raise e1 /\
    result (get_filtered_queryset sample five_servers
              (mkRequest (params [("qty", "abc")])
                         (AuthenticatedUser 10))) = Raise e2 /\
    e1 = not_found "99999" /\
    e2 = invalid_qty /\
    class_of e1 = class_of e2 /\
    status_code e1 = status_code e2.
Proof. do 2 eexists. repeat split; reflexivity. Qed.

(** C3, amended: the pipeline fails in two classes of error.  Every failure
    is [AuthenticationFailed] or a [ValidationError]; [AuthenticationFailed]
    differs in class from the not-found and the not-an-integer errors, while
    those are all [ValidationError]s, told apart by their detail only: for
    every [by_serverid], the not-found detail differs from both
    not-an-integer details, which differ from each other. *)
Theorem failures_told_apart
    (env : Environment) (objects : list Server) (request : Request) (e : exn) :
  result (get_filtered_queryset env objects request) = Raise e ->
  (class_of e = AuthenticationFailedClass /\ e = AuthenticationFailed \/
   class_of e = ValidationErrorClass /\
   (e = invalid_server_id \/ e = invalid_qty \/
    exists by_serverid,
      provided (query_params request !! "by_serverid") = Some by_serverid /\
      e = not_found by_serverid)) /\
  (forall by_serverid,
      class_of AuthenticationFailed <> class_of (not_found by_serverid) /\
      class_of AuthenticationFailed <> class_of invalid_server_id /\
      class_of AuthenticationFailed <> class_of invalid_qty /\
      class_of (not_found by_serverid) = class_of invalid_server_id /\
      class_of (not_found by_serverid) = class_of invalid_qty /\
      not_found by_serverid <> invalid_server_id /\
      not_found by_serverid <> invalid_qty /\
      invalid_server_id <> invalid_qty).
Proof.
  intros Hfail. split.
  - destruct (failure_cases _ _ _ _ Hfail) as [-> | [-> | [-> | (raw & Hraw & ->)]]];
      [left | right ..]; (split; [reflexivity|]); eauto.
  - intros raw. unfold not_found, invalid_server_id, invalid_qty. simpl.
    repeat split; discriminate.
Qed.

Lemma failures_told_apart_witness :
  class_of (not_found "99999") = ValidationErrorClass /\
  not_found "99999" <> invalid_qty.
Proof.
  destruct (failures_told_apart sample five_servers
              (mkRequest (params [("by_serverid", "99999")])
                         (AuthenticatedUser 10))
              (not_found "99999")) as [Hcase Hdiff]; [reflexivity|].
  split.
  - reflexivity.
  - apply (Hdiff "99999").
Defined.

(** ** Runs that return *)

Lemma filter_by_server_id_Return
    (env : Environment) (request : Request) (qs qs' : list Row)
    (by_serverid : string) :
  result (filter_by_server_id env request qs by_serverid) = Return qs' ->
  is_authenticated (user request) = true /\
  QuerySet.filter_id env by_serverid qs = Some qs' /\ qs' <> [].
Proof.
  unfold filter_by_server_id.
  destruct (is_authenticated (user request)); simpl; [|discriminate].
  destruct (QuerySet.filter_id env by_serverid qs) as [[|r l]|]; simpl;
    [discriminate | | discriminate].
  intros [= <-]. done.
Qed.

Lemma limit_results_Return
    (env : Environment) (qs rows : list Row) (qty : string) :
  result (limit_results env qs qty) = Return rows ->
  exists n, int env qty = Some n /\ 0 <= n <= max_limit env /\
            rows = take (Z.to_nat n) qs.
Proof.
  destruct (int env qty) as [n|] eqn:Hint;
    [|by rewrite (limit_results_int_fails _ _ _ Hint)].
  destruct (Z_lt_le_dec n 0) as [Hneg | Hpos];
    [by rewrite (limit_results_negative _ _ _ _ Hint Hneg)|].
  destruct (Z_lt_le_dec (max_limit env) n) as [Hbig | Hok];
    [by rewrite (limit_results_beyond _ _ _ _ Hint Hbig)|].
  rewrite (limit_results_in_range _ _ _ _ Hint (conj Hpos Hok)).
  intros [= <-]. eauto.
Qed.

(** What a returning run returns: the counted rows, cut down to the requested
    id if any, then to the requested quantity if any. *)
Lemma success_shape
    (env : Environment) (objects : list Server) (request : Request)
    (rows : list Row) :
  result (get_filtered_queryset env objects request) = Return rows ->
  exists kept,
    match provided (query_params request !! "by_serverid") with
    | Some by_serverid =>
        is_authenticated (user request) = true /\
        QuerySet.filter_id env by_serverid (counted env objects request) = Some kept /\
        kept <> []
    | None => kept = counted env objects request
    end /\
    match provided (query_params request !! "qty") with
    | Some qty =>
        exists n, int env qty = Some n /\ 0 <= n <= max_limit env /\
                  rows = take (Z.to_nat n) kept
    | None => rows = kept
    end /\
    (eq_str_true (query_params request !! "by_user") = true ->
     is_authenticated (user request) = true).
Proof.
  unfold get_filtered_queryset, mbind, M_bind. intros H.
  apply bind_Return_inv in H as (q1 & H1 & H & _).
  apply bind_Return_inv in H as (q2 & H2 & H & _).
  apply bind_Return_inv in H as (q3 & H3 & H & _).
  apply bind_Return_inv in H as (q4 & H4 & H & _).
  apply bind_Return_inv in H as (q5 & H5 & H & _).
  injection H as <-.
  assert (Hq3 : q3 = counted env objects request /\
                (eq_str_true (query_params request !! "by_user") = true ->
                 is_authenticated (user request) = true)).
  { unfold counted, narrowed, queryset in *.
    destruct (provided (query_params request !! "category")),
      (eq_str_true (query_params request !! "by_user")),
      (user request),
      (eq_str_true (query_params request !! "with_num_members"));
      simpl in *; by simplify_eq. }
  destruct Hq3 as [-> Hauth].
  exists q4. split; [|split; [|exact Hauth]].
  - destruct (provided (query_params request !! "by_serverid")) as [raw|].
    + by apply filter_by_server_id_Return.
    + by injection H4.
  - destruct (provided (query_params request !! "qty")) as [q|].
    + by apply limit_results_Return.
    + by injection H5.
Qed.

(** The calls of a returning run, step by step in the order of the code. *)
Lemma success_calls
    (env : Environment) (objects : list Server) (request : Request)
    (rows : list Row) :
  result (get_filtered_queryset env objects request) = Return rows ->
  calls (get_filtered_queryset env objects request)
  = (category_call request ++ by_user_call request ++ annotate_call request ++
     by_serverid_calls request ++ qty_calls env request)%list.
Proof.
  unfold get_filtered_queryset, mbind, M_bind. intros H.
  apply bind_Return_inv in H as (q1 & H1 & H & ->).
  apply bind_Return_inv in H as (q2 & H2 & H & ->).
  apply bind_Return_inv in H as (q3 & H3 & H & ->).
  apply bind_Return_inv in H as (q4 & H4 & H & ->).
  apply bind_Return_inv in H as (q5 & H5 & H & ->).
  simpl (calls (ret q5)). rewrite app_nil_r.
  f_equal; [|f_equal; [|f_equal; [|f_equal]]].
  - unfold category_call.
    destruct (provided (query_params request !! "category")); reflexivity.
  - unfold by_user_call.
    destruct (eq_str_true (query_params request !! "by_user")); [|reflexivity].
    destruct (user request); reflexivity.
  - unfold annotate_call.
    destruct (eq_str_true (query_params request !! "with_num_members")); reflexivity.
  - unfold by_serverid_calls.
    destruct (provided (query_params request !! "by_serverid")) as [raw|];
      [|reflexivity].
    apply filter_by_server_id_Return in H4 as (Hauth & Hf & Hne).
    destruct (user request) as [|uid] eqn:Hu; [discriminate|].
    by rewrite (filter_by_server_id_found _ _ _ _ _ _ Hu Hf Hne).
  - unfold qty_calls.
    destruct (provided (query_params request !! "qty")) as [qty|];
      [|reflexivity].
    apply limit_results_Return in H5 as (n & Hint & Hn & _).
    by rewrite Hint, (limit_results_in_range _ _ _ _ Hint Hn).
Qed.


(** ** The member count *)

(** C9: the code breaks the claim when the by-user filter runs first.  On the
    sample table the caller 10 belongs to the servers 1, 2 and 4, which have
    3, 1 and 2 members; the pipeline returns these three, in whatever order
    the database gives them, and annotates each of them with 1. *)
Theorem num_members_after_by_user_filter (env : Environment) :
  let request :=
    mkRequest (params [("by_user", "true"); ("with_num_members", "true")])
              (AuthenticatedUser 10) in
  exists rows,
    result (get_filtered_queryset env five_servers request) = Return rows /\
    (server_id ∘ row_server <$> rows) ≡ₚ [1; 2; 4] /\
    (num_members <$> rows) = [Some 1%nat; Some 1%nat; Some 1%nat] /\
    (size ∘ server_member ∘ row_server <$> rows) ≡ₚ [3%nat; 1%nat; 2%nat] /\
    ((fun r => (server_id (row_server r),
                size (server_member (row_server r)))) <$> rows)
    ≡ₚ [(1, 3%nat); (2, 1%nat); (4, 2%nat)].
Proof.
  intros request.
  exists (QuerySet.annotate_num_members env
            (QuerySet.filter_member env 10 (QuerySet.all five_servers))).
  split; [reflexivity|].
  assert (Hrows :
            QuerySet.annotate_num_members env
              (QuerySet.filter_member env 10 (QuerySet.all five_servers))
            ≡ₚ (fun r => mkRow (row_server r) (row_member r)
                           (Some (size (row_member r))))
                 <$> ((fun r => mkRow (row_server r) (row_member r ∩ {[10]})
                                  (num_members r))
                        <$> filter (fun r => 10 ∈ row_member r)
                              (QuerySet.all five_servers))).
  { rewrite annotate_num_members_perm. apply fmap_Permutation.
    apply filter_member_perm. }
  split; [|split; [|split]].
  - rewrite Hrows. reflexivity.
  - assert (Hcounts :
              (num_members
                 <$> QuerySet.annotate_num_members env
                       (QuerySet.filter_member env 10
                          (QuerySet.all five_servers)))
              ≡ₚ [Some 1%nat; Some 1%nat; Some 1%nat])
      by (rewrite Hrows; reflexivity).
    pose proof (Permutation_length Hcounts) as Hlen.
    assert (Hall : Forall (fun c => c = Some 1%nat)
                     (num_members
                        <$> QuerySet.annotate_num_members env
                              (QuerySet.filter_member env 10
                                 (QuerySet.all five_servers))))
      by (rewrite Hcounts; repeat constructor).
    destruct (num_members
                <$> QuerySet.annotate_num_members env
                      (QuerySet.filter_member env 10
                         (QuerySet.all five_servers)))
      as [|a [|b [|c [|d l]]]]; try discriminate Hlen.
    apply Forall_cons in Hall as [-> Hall].
    apply Forall_cons in Hall as [-> Hall].
    apply Forall_cons in Hall as [-> _]. reflexivity.
  - rewrite Hrows. reflexivity.
  - rewrite Hrows. reflexivity.
Qed.

(** On a database that returns the rows of the join and of the GROUP BY in
    table order, the three servers come as the table has them. *)
Example by_user_count_in_table_order :
  let request :=
    mkRequest (params [("by_user", "true"); ("with_num_members", "true")])
              (AuthenticatedUser 10) in
  exists rows,
    result (get_filtered_queryset sample five_servers request) = Return rows /\
    (server_id ∘ row_server <$> rows) = [1; 2; 4] /\
    (num_members <$> rows) = [Some 1%nat; Some 1%nat; Some 1%nat] /\
    (size ∘ server_member ∘ row_server <$> rows) = [3%nat; 1%nat; 2%nat].
Proof. eexists. repeat split; reflexivity. Qed.

(** Every row a run returns is one of the counted rows. *)
Lemma rows_in_counted
    (env : Environment) (objects : list Server) (request : Request)
    (rows : list Row) (r : Row) :
  result (get_filtered_queryset env objects request) = Return rows ->
  r ∈ rows -> r ∈ counted env objects request.
Proof.
  intros Hret Hr.
  destruct (success_shape _ _ _ _ Hret) as (kept & Hkept & Hrows & _).
  assert (Hin : r ∈ kept).
  { destruct (provided (query_params request !! "qty")) as [qty|].
    - destruct Hrows as (n & _ & _ & ->). by apply (subseteq_take (Z.to_nat n)).
    - by subst rows. }
  destruct (provided (query_params request !! "by_serverid")) as [raw|].
  - destruct Hkept as (_ & Hf & _).
    by apply (elem_of_filter_id _ _ _ _ r Hf) in Hin as [_ Hin].
  - by subst kept.
Qed.

(** Without the by-user filter the annotation is the server's member count. *)
Lemma num_members_without_by_user
    (env : Environment) (objects : list Server) (request : Request)
    (rows : list Row) (r : Row) :
  eq_str_true (query_params request !! "by_user") = false ->
  query_params request !! "with_num_members" = Some "true" ->
  result (get_filtered_queryset env objects request) = Return rows ->
  r ∈ rows ->
  num_members r = Some (size (server_member (row_server r))).
Proof.
  intros Hby Hnum%eq_str_true_spec Hret Hr.
  apply (rows_in_counted _ _ _ _ _ Hret) in Hr.
  unfold counted, narrowed in Hr. rewrite Hby, Hnum in Hr.
  destruct (provided (query_params request !! "category"));
    repeat invert_row; congruence.
Qed.

(** The join under [user_id = uid] holds one row of a server that has [uid]
    among its members. *)
Lemma size_joined_member (members : gset Z) (uid : Z) :
  uid ∈ members -> size (members ∩ {[uid]}) = 1%nat.
Proof.
  intros Hin.
  assert (members ∩ {[uid]} = {[uid]}) as Heq.
  { apply set_eq. intros x. rewrite elem_of_intersection, elem_of_singleton.
    split; [by intros [_ ->] | by intros ->]. }
  rewrite Heq. apply size_singleton.
Qed.

(** Behind the by-user filter the annotation counts the joined membership
    rows, and the join holds the caller's row only: the count is one, however
    many members the server has. *)
Lemma num_members_with_by_user
    (env : Environment) (objects : list Server) (request : Request)
    (rows : list Row) (r : Row) :
  query_params request !! "by_user" = Some "true" ->
  query_params request !! "with_num_members" = Some "true" ->
  result (get_filtered_queryset env objects request) = Return rows ->
  r ∈ rows ->
  num_members r = Some 1%nat.
Proof.
  intros Hby%eq_str_true_spec Hnum%eq_str_true_spec Hret Hr.
  destruct (success_shape _ _ _ _ Hret) as (_ & _ & _ & Hauth).
  specialize (Hauth Hby).
  apply (rows_in_counted _ _ _ _ _ Hret) in Hr.
  unfold counted, narrowed in Hr. rewrite Hby, Hnum in Hr.
  destruct (user request) as [|uid]; [discriminate|].
  destruct (provided (query_params request !! "category"));
    repeat invert_row;
    match goal with
    | H : num_members r = _ |- _ => rewrite H
    end; f_equal;
    match goal with
    | H : row_member ?x = _ ∩ _ |- _ => rewrite H
    end; by apply size_joined_member.
Qed.

(** * Further properties of the view *)

(** ** Runs compose *)

Lemma bind_assoc {A B C} (m : M A) (f : A -> M B) (g : B -> M C) :
  bind (bind m f) g = bind m (fun a => bind (f a) g).
Proof.
  destruct m as [t [a | e |]]; simpl; [|reflexivity..].
  destruct (f a) as [t' [b | e |]]; simpl; [|reflexivity..].
  destruct (g b) as [t'' r]. by rewrite app_assoc.
Qed.

Lemma bind_called_Some {A B} (c : Call) (a : A) (k : A -> M B) :
  bind (called c (Some a)) k = (c :: calls (k a), result (k a)).
Proof. simpl. by destruct (k a). Qed.

Lemma bind_pair_Return {A B} (t : list Call) (a : A) (k : A -> M B) :
  bind (t, Return a) k = ((t ++ calls (k a))%list, result (k a)).
Proof. simpl. by destruct (k a). Qed.

Lemma bind_ret {A B} (a : A) (k : A -> M B) : bind (ret a) k = k a.
Proof. simpl. by destruct (k a). Qed.

(** The pipeline stops at the by-user step for an anonymous caller, and
    otherwise hands the counted rows to the last two steps. *)
Lemma pipeline_stages
    (env : Environment) (objects : list Server) (request : Request) :
  get_filtered_queryset env objects request
  = if eq_str_true (query_params request !! "by_user")
       && negb (is_authenticated (user request))
    then (category_call request, Raise AuthenticationFailed)
    else bind ((category_call request ++ by_user_call request ++
                annotate_call request)%list,
               Return (counted env objects request))
           (after_count env request).
Proof.
  change (get_filtered_queryset env objects request) with
    (bind (match provided (query_params request !! "category") with
           | Some category =>
               called (call_filter_category category)
                 (Some (QuerySet.filter_category_name category
                          (QuerySet.all objects)))
           | None => ret (QuerySet.all objects)
           end)
       (fun queryset =>
          bind (if eq_str_true (query_params request !! "by_user") then
                  match user request with
                  | AuthenticatedUser uid =>
                      called (call_filter_member uid)
                        (Some (QuerySet.filter_member env uid queryset))
                  | AnonymousUser => raise AuthenticationFailed
                  end
                else ret queryset)
            (fun queryset =>
               bind (if eq_str_true (query_params request !! "with_num_members")
                     then called call_annotate_num_members
                            (Some (QuerySet.annotate_num_members env queryset))
                     else ret queryset)
                 (after_count env request)))).
  unfold category_call, by_user_call, annotate_call, counted, narrowed.
  destruct (provided (query_params request !! "category")) as [c|],
    (eq_str_true (query_params request !! "by_user")),
    (user request) as [|uid],
    (eq_str_true (query_params request !! "with_num_members"));
    cbn [andb negb is_authenticated];
    repeat (first [rewrite bind_called_Some | rewrite bind_ret
                  | rewrite bind_pair_Return]; cbv beta);
    cbn [calls result fst snd app];
    first [reflexivity | by destruct (after_count env request _)].
Qed.


(** ** The servers a run returns *)

Lemma filter_fmap_iff {A B} (f : A -> B) (P : B -> Prop) (Q : A -> Prop)
    `{forall b, Decision (P b)} `{forall a, Decision (Q a)} (l : list A) :
  (forall a, P (f a) <-> Q a) ->
  filter P (f <$> l) = f <$> filter Q l.
Proof.
  intros HPQ. induction l as [|a l IH]; [reflexivity|].
  rewrite fmap_cons, !filter_cons.
  destruct (decide (P (f a))) as [HP | HP], (decide (Q a)) as [HQ | HQ].
  - rewrite fmap_cons. by rewrite IH.
  - by apply HPQ in HP.
  - by apply HPQ in HQ.
  - exact IH.
Qed.

Lemma fmap_filter_ext {A B} (g1 g2 : A -> B) (P1 P2 : A -> Prop)
    `{forall a, Decision (P1 a)} `{forall a, Decision (P2 a)} (l : list A) :
  (forall a, g1 a = g2 a) -> (forall a, P1 a <-> P2 a) ->
  g1 <$> filter P1 l = g2 <$> filter P2 l.
Proof.
  intros Hg HP. rewrite (list_filter_iff P1 P2 l HP).
  apply list_fmap_ext. intros i a _. apply Hg.
Qed.

Lemma all_filter (objects : list Server) :
  QuerySet.all objects
  = (fun s => mkRow s (server_member s) None)
      <$> filter (fun _ : Server => True) objects.
Proof.
  unfold QuerySet.all. f_equal. symmetry.
  induction objects as [|s l IH]; [reflexivity|].
  rewrite filter_cons_True by done. by rewrite IH.
Qed.

(** The first three steps without the orders of the database: the servers
    that pass the category and membership conditions, in table order, each
    made into its row. *)
Lemma counted_in_table_order (objects : list Server) (request : Request) :
  (let kept :=
     match provided (query_params request !! "category") with
     | Some category =>
         QuerySet.filter_category_name category (QuerySet.all objects)
     | None => QuerySet.all objects
     end in
   let joined :=
     if eq_str_true (query_params request !! "by_user") then
       match user request with
       | AuthenticatedUser uid =>
           (fun r => mkRow (row_server r) (row_member r ∩ {[uid]})
                       (num_members r))
             <$> filter (fun r => uid ∈ row_member r) kept
       | AnonymousUser => kept
       end
     else kept in
   if eq_str_true (query_params request !! "with_num_members")
   then (fun r => mkRow (row_server r) (row_member r)
                    (Some (size (row_member r)))) <$> joined
   else joined)
  = row_for request
      <$> filter (fun s => category_ok request s && member_ok request s = true)
            objects.
Proof.
  cbn zeta. rewrite all_filter.
  unfold QuerySet.filter_category_name, category_ok, member_ok, row_for.
  destruct (provided (query_params request !! "category")) as [c|],
    (eq_str_true (query_params request !! "by_user")),
    (user request) as [|uid],
    (eq_str_true (query_params request !! "with_num_members"));
    cbn zeta;
    repeat match goal with
      | |- context [filter (fun r => server_category (row_server r) = ?c)
                      (?f <$> ?l)] =>
          rewrite (filter_fmap_iff f
                     (fun r => server_category (row_server r) = c)
                     (fun s => server_category s = c) l)
            by (intros; reflexivity)
      | |- context [filter (fun r => ?uid ∈ row_member r) (?f <$> ?l)] =>
          rewrite (filter_fmap_iff f (fun r => uid ∈ row_member r)
                     (fun s => uid ∈ server_member s) l)
            by (intros; reflexivity)
      | |- _ => rewrite list_filter_filter
      | |- _ => rewrite <- list_fmap_compose
      end;
    (apply fmap_filter_ext; [intros; reflexivity|]);
    intros s;
    rewrite ?andb_true_l, ?andb_true_r, ?andb_true_iff, ?bool_decide_eq_true;
    tauto.
Qed.

(** The counted rows are those rows, in the order the join and the GROUP BY
    leave them in. *)
Lemma counted_rows
    (env : Environment) (objects : list Server) (request : Request) :
  counted env objects request
  ≡ₚ row_for request
       <$> filter (fun s => category_ok request s && member_ok request s = true)
             objects.
Proof.
  rewrite <- counted_in_table_order. cbn zeta. unfold counted, narrowed.
  destruct (eq_str_true (query_params request !! "by_user")),
    (user request) as [|uid],
    (eq_str_true (query_params request !! "with_num_members"));
    rewrite ?annotate_num_members_perm, ?filter_member_perm; reflexivity.
Qed.

(** Without the join of [by_user] and the GROUP BY of [with_num_members] no
    step of the pipeline changes the order of the table. *)
Lemma counted_rows_in_order
    (env : Environment) (objects : list Server) (request : Request) :
  eq_str_true (query_params request !! "by_user") = false ->
  eq_str_true (query_params request !! "with_num_members") = false ->
  counted env objects request
  = row_for request
      <$> filter (fun s => category_ok request s && member_ok request s = true)
            objects.
Proof.
  intros Hby Hnum. rewrite <- counted_in_table_order. cbn zeta.
  unfold counted, narrowed. by rewrite Hby, Hnum.
Qed.

Lemma row_for_server (request : Request) (s : Server) :
  row_server (row_for request s) = s.
Proof. reflexivity. Qed.


(** The id filter on rows made by [row_for] is a filter on the servers. *)
Lemma filter_id_rows
    (env : Environment) (request : Request) (raw : string) (n : Z)
    (l : list Server) :
  int env raw = Some n ->
  QuerySet.filter_id env raw (row_for request <$> l)
  = Some (row_for request <$> filter (fun s => server_id s = n) l).
Proof.
  intros Hint. unfold QuerySet.filter_id. rewrite Hint. simpl. f_equal.
  apply filter_fmap_iff. intros s. by rewrite row_for_server.
Qed.

(** The id filter keeps the rows with the id, whatever their order. *)
Lemma filter_id_perm
    (env : Environment) (raw : string) (qs qs' kept : list Row) :
  qs ≡ₚ qs' ->
  QuerySet.filter_id env raw qs = Some kept ->
  exists kept', QuerySet.filter_id env raw qs' = Some kept' /\ kept ≡ₚ kept'.
Proof.
  intros Hp. unfold QuerySet.filter_id.
  destruct (int env raw) as [n|]; simpl; [|discriminate].
  intros [= <-]. eexists. split; [reflexivity|]. by rewrite Hp.
Qed.

Lemma filter_wanted
    (env : Environment) (objects : list Server) (request : Request) :
  filter (fun s => id_ok env request s = true)
    (filter (fun s => category_ok request s && member_ok request s = true)
       objects)
  = filter (fun s => wanted env request s = true) objects.
Proof.
  rewrite list_filter_filter. apply list_filter_iff. intros s.
  unfold wanted. rewrite !andb_true_iff. tauto.
Qed.

(** The rows that reach the quantity limit are the rows of the servers that
    meet every condition of the request: in the order of the database, which
    is the order of the table when neither [by_user] nor [with_num_members]
    is set. *)
Lemma kept_wanted
    (env : Environment) (objects : list Server) (request : Request)
    (kept : list Row) :
  match provided (query_params request !! "by_serverid") with
  | Some by_serverid =>
      is_authenticated (user request) = true /\
      QuerySet.filter_id env by_serverid (counted env objects request)
      = Some kept /\
      kept <> []
  | None => kept = counted env objects request
  end ->
  kept ≡ₚ row_for request
            <$> filter (fun s => wanted env request s = true) objects /\
  (eq_str_true (query_params request !! "by_user") = false ->
   eq_str_true (query_params request !! "with_num_members") = false ->
   kept = row_for request
            <$> filter (fun s => wanted env request s = true) objects).
Proof.
  intros Hkept. rewrite <- filter_wanted. unfold id_ok.
  destruct (provided (query_params request !! "by_serverid")) as [raw|].
  - destruct Hkept as (_ & Hf & _).
    destruct (int env raw) as [n|] eqn:Hint;
      [|unfold QuerySet.filter_id in Hf; by rewrite Hint in Hf].
    assert (Hsame :
              filter (fun s => bool_decide (Some n = Some (server_id s)) = true)
                (filter (fun s => category_ok request s
                                  && member_ok request s = true) objects)
              = filter (fun s => server_id s = n)
                  (filter (fun s => category_ok request s
                                    && member_ok request s = true) objects)).
    { apply list_filter_iff. intros s. rewrite bool_decide_eq_true.
      split; [by intros [= <-] | by intros <-]. }
    rewrite Hsame. split.
    + destruct (filter_id_perm _ _ _ _ _ (counted_rows env objects request) Hf)
        as (kept' & Hf' & Hp).
      rewrite (filter_id_rows _ _ _ n _ Hint) in Hf'. by injection Hf' as <-.
    + intros Hby Hnum. rewrite (counted_rows_in_order _ _ _ Hby Hnum) in Hf.
      rewrite (filter_id_rows _ _ _ n _ Hint) in Hf. by injection Hf as <-.
  - subst kept.
    assert (Hsame :
              filter (fun _ : Server => true = true)
                (filter (fun s => category_ok request s
                                  && member_ok request s = true) objects)
              = filter (fun s => category_ok request s
                                 && member_ok request s = true) objects).
    { rewrite list_filter_filter. apply list_filter_iff. intros s. tauto. }
    rewrite Hsame. split; [apply counted_rows | apply counted_rows_in_order].
Qed.



Lemma wanted_true (env : Environment) (request : Request) (s : Server) :
  wanted env request s = true <->
  category_ok request s = true /\ member_ok request s = true /\
  id_ok env request s = true.
Proof. unfold wanted. rewrite !andb_true_iff. tauto. Qed.

(** ** When the pipeline returns *)

(** The pipeline returns records exactly when the caller is authenticated if
    [by_user] or [by_serverid] asks for it, some server of the table meets
    the conditions if [by_serverid] is given, and [qty], if given, is read by
    [int] as an integer from 0 to the largest LIMIT of the database.  An
    empty result is an error only for [by_serverid]. *)
Theorem returns_iff
    (env : Environment) (objects : list Server) (request : Request) :
  (exists rows,
      result (get_filtered_queryset env objects request) = Return rows)
  <->
  (query_params request !! "by_user" = Some "true" ->
   is_authenticated (user request) = true) /\
  (forall by_serverid,
      provided (query_params request !! "by_serverid") = Some by_serverid ->
      is_authenticated (user request) = true /\
      exists s, s ∈ objects /\ wanted env request s = true) /\
  (forall qty,
      provided (query_params request !! "qty") = Some qty ->
      exists n, int env qty = Some n /\ 0 <= n <= max_limit env).
Proof.
  split.
  - intros [rows Hret].
    destruct (success_shape _ _ _ _ Hret) as (kept & Hkept & Hqty & Hauth).
    split; [by intros ?%eq_str_true_spec; apply Hauth|]. split.
    + intros raw Hraw.
      assert (Ha : is_authenticated (user request) = true /\ kept <> [])
        by (rewrite Hraw in Hkept; tauto).
      destruct Ha as [Ha Hne]. split; [exact Ha|].
      apply kept_wanted in Hkept as [Hperm _].
      destruct kept as [|r kept]; [done|].
      assert (Hr : r ∈ row_for request
                     <$> filter (fun s => wanted env request s = true) objects)
        by (rewrite <- Hperm; apply list_elem_of_here).
      apply list_elem_of_fmap in Hr as (s & _ & Hs).
      apply list_elem_of_filter in Hs as [Hw Hs]. by exists s.
    + intros qty Hq. rewrite Hq in Hqty.
      destruct Hqty as (n & Hint & Hn & _). eauto.
  - intros (Hauth & Hid & Hqty).
    rewrite pipeline_stages.
    assert (eq_str_true (query_params request !! "by_user")
            && negb (is_authenticated (user request)) = false) as ->.
    { destruct (eq_str_true _) eqn:Hby; [|reflexivity].
      apply eq_str_true_spec in Hby. by rewrite (Hauth Hby). }
    rewrite bind_pair_Return. cbn [result snd].
    unfold after_count.
    assert (Hstep : exists kept,
               result (match provided (query_params request !! "by_serverid") with
                       | Some by_serverid =>
                           filter_by_server_id env request
                             (counted env objects request) by_serverid
                       | None => ret (counted env objects request)
                       end) = Return kept).
    { destruct (provided (query_params request !! "by_serverid")) as [raw|]
        eqn:Hraw; [|by eexists].
      destruct (Hid raw eq_refl) as (Ha & s & Hs & Hw).
      apply wanted_true in Hw as (Hc & Hm & Hi).
      unfold id_ok in Hi. rewrite Hraw in Hi. apply bool_decide_eq_true in Hi.
      destruct (user request) as [|uid] eqn:Hu; [discriminate Ha|].
      assert (Hin : row_for request s ∈ counted env objects request).
      { rewrite counted_rows. apply list_elem_of_fmap_2.
        apply list_elem_of_filter. split; [by rewrite Hc, Hm | exact Hs]. }
      destruct (QuerySet.filter_id env raw (counted env objects request))
        as [kept|] eqn:Hf;
        [|apply filter_id_None in Hf; congruence].
      exists kept.
      rewrite (filter_by_server_id_found _ _ _ _ _ _ Hu Hf); [reflexivity|].
      intros ->.
      assert (Hno : row_for request s ∈ @nil Row)
        by (apply (elem_of_filter_id _ _ _ _ (row_for request s) Hf); done).
      by apply not_elem_of_nil in Hno. }
    destruct Hstep as [kept Hkept].
    rewrite (bind_Return _ _ _ Hkept). cbn [result snd].
    destruct (provided (query_params request !! "qty")) as [qty|] eqn:Hq.
    + destruct (Hqty qty eq_refl) as (n & Hint & Hn).
      rewrite (limit_results_in_range _ _ _ _ Hint Hn). by eexists.
    + by eexists.
Qed.

(** [AuthenticationFailed] is raised exactly for an anonymous caller who sets
    [by_user] to true or gives a non-empty [by_serverid]; no other input and
    no authenticated caller ever gets it. *)
Theorem authentication_failed_iff
    (env : Environment) (objects : list Server) (request : Request) :
  result (get_filtered_queryset env objects request) = Raise AuthenticationFailed
  <->
  user request = AnonymousUser /\
  (query_params request !! "by_user" = Some "true" \/
   exists by_serverid,
     provided (query_params request !! "by_serverid") = Some by_serverid).
Proof.
  rewrite pipeline_stages.
  destruct (eq_str_true (query_params request !! "by_user")) eqn:Hby.
  - apply eq_str_true_spec in Hby.
    destruct (user request) as [|uid] eqn:Hu; cbn [andb negb is_authenticated].
    + split; [intros _; split; [reflexivity | by left] | reflexivity].
    + rewrite bind_pair_Return. cbn [result snd].
      split; [|by intros [? _]].
      unfold after_count, filter_by_server_id, limit_results.
      rewrite Hu. unfold_view. unfold QuerySet.slice.
      split_cases; discriminate.
  - apply eq_str_true_false in Hby. cbn [andb].
    rewrite bind_pair_Return. cbn [result snd].
    unfold after_count.
    destruct (provided (query_params request !! "by_serverid")) as [raw|].
    + destruct (user request) as [|uid] eqn:Hu.
      * rewrite (filter_by_server_id_anonymous _ _ _ _ Hu). simpl.
        split; [intros _; split; [reflexivity | right; by exists raw]
               | reflexivity].
      * split; [|by intros [? _]].
        unfold filter_by_server_id, limit_results. rewrite Hu.
        unfold_view. unfold QuerySet.slice. split_cases; discriminate.
    + split.
      * unfold limit_results. unfold_view. unfold QuerySet.slice.
        split_cases; discriminate.
      * intros (_ & [H | [raw H]]); [done | discriminate H].
Qed.

(** ** The parameters the view reads *)

(** The view reads the five documented parameters and the caller, nothing
    else: two requests that agree on them run alike, whatever other
    parameters ([page], [page_size], ...) they carry. *)
Theorem documented_parameters_decide
    (env : Environment) (objects : list Server) (request request' : Request) :
  user request = user request' ->
  (forall key type,
      (key, type) ∈ server_list_docs ->
      query_params request !! key = query_params request' !! key) ->
  get_filtered_queryset env objects request
  = get_filtered_queryset env objects request'.
Proof.
  intros Hu Hdocs.
  assert (Hkey : forall key type,
             (key, type) ∈ server_list_docs ->
             query_params request !! key = query_params request' !! key)
    by exact Hdocs.
  unfold server_list_docs in Hkey.
  pose proof (Hkey "category" STR ltac:(set_solver)) as Hc.
  pose proof (Hkey "qty" INT ltac:(set_solver)) as Hq.
  pose proof (Hkey "by_user" BOOL ltac:(set_solver)) as Hb.
  pose proof (Hkey "by_serverid" INT ltac:(set_solver)) as Hi.
  pose proof (Hkey "with_num_members" BOOL ltac:(set_solver)) as Hn.
  unfold get_filtered_queryset, filter_by_server_id.
  rewrite Hc, Hq, Hb, Hi, Hn, Hu. reflexivity.
Qed.

Lemma documented_parameters_decide_witness :
  get_filtered_queryset sample five_servers
    (mkRequest (params [("category", "X"); ("page", "2"); ("page_size", "5")])
               AnonymousUser)
  = get_filtered_queryset sample five_servers
      (mkRequest (params [("category", "X")]) AnonymousUser).
Proof.
  apply documented_parameters_decide; [reflexivity|].
  intros key type Hin. unfold server_list_docs in Hin.
  repeat (apply elem_of_cons in Hin as [[= -> ->] | Hin]; [reflexivity|]).
  by apply not_elem_of_nil in Hin.
Defined.

(** With none of the five parameters the view returns the whole table, in
    order, without annotation and without a call, to any caller. *)
Theorem no_parameters_whole_table
    (env : Environment) (objects : list Server) (request : Request) :
  (forall key type,
      (key, type) ∈ server_list_docs -> query_params request !! key = None) ->
  get_filtered_queryset env objects request = ([], Return (QuerySet.all objects)) /\
  (row_server <$> QuerySet.all objects) = objects /\
  Forall (fun r => num_members r = None) (QuerySet.all objects).
Proof.
  intros Hnone. unfold server_list_docs in Hnone. split; [|split].
  - unfold get_filtered_queryset, queryset.
    rewrite (Hnone "category" STR) by set_solver.
    rewrite (Hnone "qty" INT) by set_solver.
    rewrite (Hnone "by_user" BOOL) by set_solver.
    rewrite (Hnone "by_serverid" INT) by set_solver.
    rewrite (Hnone "with_num_members" BOOL) by set_solver.
    reflexivity.
  - apply all_servers.
  - apply Forall_forall. intros r Hr.
    unfold QuerySet.all in Hr.
    apply list_elem_of_fmap in Hr as (s & -> & _). reflexivity.
Qed.

Lemma no_parameters_whole_table_witness :
  get_filtered_queryset sample five_servers
    (mkRequest (params [("page", "3")]) AnonymousUser)
  = ([], Return (QuerySet.all five_servers)).
Proof.
  apply no_parameters_whole_table.
  intros key type Hin. unfold server_list_docs in Hin.
  repeat (apply elem_of_cons in Hin as [[= -> ->] | Hin]; [reflexivity|]).
  by apply not_elem_of_nil in Hin.
Defined.

(** An empty [category], [qty] or [by_serverid] is read as an absent one: the
    run is that of the request without the parameter.  In particular an
    anonymous caller may send [by_serverid=] without being refused. *)
Theorem empty_parameter_is_absent
    (env : Environment) (objects : list Server) (request : Request)
    (key : string) :
  key ∈ ["category"; "qty"; "by_serverid"] ->
  query_params request !! key = Some "" ->
  get_filtered_queryset env objects request
  = get_filtered_queryset env objects (without key request).
Proof.
  intros Hkey Hempty.
  assert (Hcases : key = "category" \/ key = "qty" \/ key = "by_serverid").
  { repeat (apply elem_of_cons in Hkey as [-> | Hkey]; [tauto|]).
    by apply not_elem_of_nil in Hkey. }
  unfold get_filtered_queryset, filter_by_server_id.
  destruct Hcases as [-> | [-> | ->]].
  - rewrite (without_lookup_ne _ "category" "qty") by done.
    rewrite (without_lookup_ne _ "category" "by_user") by done.
    rewrite (without_lookup_ne _ "category" "by_serverid") by done.
    rewrite (without_lookup_ne _ "category" "with_num_members") by done.
    by rewrite without_lookup_eq, Hempty.
  - rewrite (without_lookup_ne _ "qty" "category") by done.
    rewrite (without_lookup_ne _ "qty" "by_user") by done.
    rewrite (without_lookup_ne _ "qty" "by_serverid") by done.
    rewrite (without_lookup_ne _ "qty" "with_num_members") by done.
    by rewrite without_lookup_eq, Hempty.
  - rewrite (without_lookup_ne _ "by_serverid" "category") by done.
    rewrite (without_lookup_ne _ "by_serverid" "by_user") by done.
    rewrite (without_lookup_ne _ "by_serverid" "qty") by done.
    rewrite (without_lookup_ne _ "by_serverid" "with_num_members") by done.
    by rewrite without_lookup_eq, Hempty.
Qed.

Lemma empty_parameter_is_absent_witness :
  get_filtered_queryset sample five_servers
    (mkRequest (params [("by_serverid", ""); ("category", "X")]) AnonymousUser)
  = get_filtered_queryset sample five_servers
      (without "by_serverid"
         (mkRequest (params [("by_serverid", ""); ("category", "X")])
                    AnonymousUser)) /\
  result (get_filtered_queryset sample five_servers
            (mkRequest (params [("by_serverid", ""); ("category", "X")])
                       AnonymousUser))
  = Return (QuerySet.filter_category_name "X" (QuerySet.all five_servers)).
Proof.
  split; [|reflexivity].
  apply empty_parameter_is_absent; [|reflexivity].
  apply list_elem_of_further, list_elem_of_further, list_elem_of_here.
Defined.

(** ** The quantity limit comes last *)

(** [qty] acts on what the other parameters give: the pipeline fails as the
    request without [qty] fails, and otherwise applies the limit to the rows
    that request returns.  So an error of an earlier step wins over a bad
    [qty], and [qty] can only shorten a result. *)
Theorem qty_applied_last
    (env : Environment) (objects : list Server) (request : Request) :
  result (get_filtered_queryset env objects request)
  = match result (get_filtered_queryset env objects (without "qty" request)) with
    | Return rows =>
        match provided (query_params request !! "qty") with
        | Some qty => result (limit_results env rows qty)
        | None => Return rows
        end
    | Raise e => Raise e
    | Unevaluable => Unevaluable
    end.
Proof.
  rewrite !pipeline_stages.
  unfold category_call, by_user_call, annotate_call, counted, narrowed,
    after_count, filter_by_server_id.
  rewrite (without_lookup_ne _ "qty" "category") by done.
  rewrite (without_lookup_ne _ "qty" "by_user") by done.
  rewrite (without_lookup_ne _ "qty" "by_serverid") by done.
  rewrite (without_lookup_ne _ "qty" "with_num_members") by done.
  rewrite without_lookup_eq.
  change (user (without "qty" request)) with (user request).
  destruct (eq_str_true (query_params request !! "by_user")
            && negb (is_authenticated (user request))); [reflexivity|].
  rewrite !bind_pair_Return. cbn [result snd provided].
  match goal with
  | |- context [bind ?m _] => destruct m as [t [rows | e |]]
  end; [|reflexivity..].
  rewrite !bind_pair_Return. cbn [result snd ret].
  rewrite bind_ret. cbn [result snd ret].
  destruct (provided (query_params request !! "qty")) as [qty|];
    [|reflexivity].
  by destruct (limit_results env rows qty) as [t' [rows' | e |]].
Qed.




(** ** One server per id *)

Lemma at_most_one {A} (f : A -> Z) (n : Z) (l : list A) :
  NoDup (f <$> l) -> (forall x, x ∈ l -> f x = n) -> (length l <= 1)%nat.
Proof.
  destruct l as [|a [|b l]]; [simpl; lia | simpl; lia |].
  intros Hnd Hall. exfalso.
  rewrite !fmap_cons in Hnd. apply NoDup_cons in Hnd as [Hnotin _].
  apply Hnotin.
  rewrite (Hall a) by apply list_elem_of_here.
  rewrite <- (Hall b) by apply list_elem_of_further, list_elem_of_here.
  apply list_elem_of_here.
Qed.

(** When ids are unique in the table, a request with [by_serverid] that
    returns has found exactly one server, the one whose id [int] reads from
    the parameter; the result is its row, or nothing if [qty] is zero. *)
Theorem by_serverid_one_server
    (env : Environment) (objects : list Server) (request : Request)
    (by_serverid : string) (rows : list Row) :
  NoDup (server_id <$> objects) ->
  provided (query_params request !! "by_serverid") = Some by_serverid ->
  result (get_filtered_queryset env objects request) = Return rows ->
  exists s,
    s ∈ objects /\
    int env by_serverid = Some (server_id s) /\
    rows = match provided (query_params request !! "qty") with
           | Some qty =>
               take (Z.to_nat (default 0 (int env qty))) [row_for request s]
           | None => [row_for request s]
           end.
Proof.
  intros Hnodup Hraw Hret.
  destruct (success_shape _ _ _ _ Hret) as (kept & Hkept & Hrows & _).
  assert (Hne : kept <> []) by (rewrite Hraw in Hkept; tauto).
  apply kept_wanted in Hkept as [Hperm _].
  assert (Hid : forall s,
             s ∈ filter (fun s => wanted env request s = true) objects ->
             int env by_serverid = Some (server_id s)).
  { intros s [Hw _]%list_elem_of_filter.
    apply wanted_true in Hw as (_ & _ & Hi).
    unfold id_ok in Hi. rewrite Hraw in Hi. by apply bool_decide_eq_true in Hi. }
  destruct (filter (fun s => wanted env request s = true) objects)
    as [|s rest] eqn:Hfilter.
  { apply Permutation_nil_r in Hperm. done. }
  pose proof (Hid s (list_elem_of_here _ _)) as Hs.
  assert (Hlen : (length (s :: rest) <= 1)%nat).
  { apply (at_most_one server_id (server_id s)).
    - rewrite <- Hfilter.
      apply (sublist_NoDup _ (server_id <$> objects));
        first [exact Hnodup | apply fmap_sublist, sublist_filter].
    - intros x Hx. apply Hid in Hx. congruence. }
  destruct rest as [|? ?]; [|simpl in Hlen; lia].
  apply Permutation_singleton_r in Hperm. subst kept.
  exists s. split; [|split; [exact Hs|]].
  - assert (Hin : s ∈ filter (fun s => wanted env request s = true) objects)
      by (rewrite Hfilter; apply list_elem_of_here).
    by apply list_elem_of_filter in Hin as [_ Hin].
  - destruct (provided (query_params request !! "qty")) as [qty|];
      [|exact Hrows].
    destruct Hrows as (n & -> & _ & ->). reflexivity.
Qed.

Lemma by_serverid_one_server_witness :
  let request :=
    mkRequest (params [("by_serverid", "4"); ("with_num_members", "true")])
              (AuthenticatedUser 12) in
  exists s,
    s ∈ five_servers /\ int sample "4" = Some (server_id s) /\
    result (get_filtered_queryset sample five_servers request)
    = Return [row_for request s].
Proof.
  intros request.
  assert (Hnodup : NoDup (server_id <$> five_servers))
    by (apply (bool_decide_unpack (NoDup (server_id <$> five_servers)));
        vm_compute; exact I).
  destruct (by_serverid_one_server sample five_servers request "4"
              [row_for request (mkServer 4 "delta" "X" {[ 10; 11 ]})]
              Hnodup eq_refl eq_refl)
    as (s & Hin & Hint & Hrows).
  exists s. split; [exact Hin|]. split; [exact Hint|].
  change (provided (query_params request !! "qty")) with (@None string)
    in Hrows.
  rewrite <- Hrows. reflexivity.
Defined.

(** ** The annotation *)

Lemma alike_bind {A B} (R : A -> A -> Prop) (R' : B -> B -> Prop)
    (m m' : M A) (k k' : A -> M B) :
  alike R (result m) (result m') ->
  (forall a a', R a a' -> alike R' (result (k a)) (result (k' a'))) ->
  alike R' (result (bind m k)) (result (bind m' k')).
Proof.
  destruct m as [t [a | e |]], m' as [t' [a' | e' |]]; simpl; try done.
  intros HR Hk. specialize (Hk a a' HR).
  by destruct (k a) as [? [? | ? |]], (k' a') as [? [? | ? |]].
Qed.

Lemma annotate_num_members_annotated (env : Environment) (qs : list Row) :
  QuerySet.annotate_num_members env qs ≡ₚ annotated <$> qs.
Proof. apply annotate_num_members_perm. Qed.

Lemma Forall_annotated (qs qs' : list Row) :
  qs ⊆+ annotated <$> qs' ->
  Forall (fun r => num_members r = Some (size (row_member r))) qs.
Proof.
  intros Hsub. apply Forall_forall. intros r Hr.
  apply (elem_of_submseteq _ _ _ Hr) in Hsub.
  by apply list_elem_of_fmap in Hsub as (r0 & -> & _).
Qed.

(** The id filter finds the annotated rows where it finds the plain ones. *)
Lemma filter_by_server_id_alike
    (env : Environment) (request : Request) (qs qs' : list Row)
    (raw : string) :
  qs ≡ₚ annotated <$> qs' ->
  alike (fun kept kept' => kept ≡ₚ annotated <$> kept')
    (result (filter_by_server_id env request qs raw))
    (result (filter_by_server_id env request qs' raw)).
Proof.
  intros Hp. unfold filter_by_server_id.
  destruct (is_authenticated (user request)); simpl; [|reflexivity].
  unfold QuerySet.filter_id.
  destruct (int env raw) as [n|]; simpl; [|reflexivity].
  assert (Hkept : filter (fun r => server_id (row_server r) = n) qs
                  ≡ₚ annotated
                       <$> filter (fun r => server_id (row_server r) = n) qs').
  { rewrite Hp. by rewrite (filter_fmap_iff annotated _
                             (fun r => server_id (row_server r) = n)). }
  destruct (filter (fun r => server_id (row_server r) = n) qs) as [|r kept],
    (filter (fun r => server_id (row_server r) = n) qs') as [|r' kept'];
    simpl; try done.
  - by apply Permutation_nil_cons in Hkept.
  - symmetry in Hkept. by apply Permutation_nil_cons in Hkept.
Qed.

(** The limit cuts two collections of one length to one length. *)
Lemma limit_results_alike
    (env : Environment) (qs qs' : list Row) (qty : string) :
  qs ≡ₚ annotated <$> qs' ->
  alike (fun rows rows' =>
           length rows = length rows' /\ rows ⊆+ annotated <$> qs')
    (result (limit_results env qs qty)) (result (limit_results env qs' qty)).
Proof.
  intros Hp.
  assert (Hlen : length qs = length qs')
    by (rewrite (Permutation_length Hp); apply length_fmap).
  unfold limit_results, called, ran, QuerySet.slice.
  destruct (int env qty) as [n|]; simpl; [|reflexivity].
  destruct (n <? 0); simpl; [reflexivity|].
  destruct (max_limit env <? n); simpl; [done|].
  split.
  - rewrite !length_take. lia.
  - rewrite <- Hp. apply submseteq_take.
Qed.

(** The steps behind the count treat annotated rows as they treat plain
    ones. *)
Lemma after_count_alike
    (env : Environment) (request : Request) (qs qs' : list Row) :
  qs ≡ₚ annotated <$> qs' ->
  alike (fun rows rows' =>
           length rows = length rows' /\
           Forall (fun r => num_members r = Some (size (row_member r))) rows /\
           (provided (query_params request !! "qty") = None ->
            rows ≡ₚ annotated <$> rows'))
    (result (after_count env request qs))
    (result (after_count env request qs')).
Proof.
  intros Hp. unfold after_count.
  apply (alike_bind (fun kept kept' => kept ≡ₚ annotated <$> kept')).
  { destruct (provided (query_params request !! "by_serverid")) as [raw|];
      [by apply filter_by_server_id_alike | exact Hp]. }
  intros kept kept' Hkept.
  apply (alike_bind (fun rows rows' =>
                       length rows = length rows' /\
                       Forall (fun r => num_members r
                                        = Some (size (row_member r))) rows /\
                       (provided (query_params request !! "qty") = None ->
                        rows ≡ₚ annotated <$> rows'))); [|by intros].
  destruct (provided (query_params request !! "qty")) as [qty|].
  - pose proof (limit_results_alike env _ _ qty Hkept) as H.
    destruct (result (limit_results env kept qty)) as [rows | e |],
      (result (limit_results env kept' qty)) as [rows' | e' |];
      simpl in *; try done.
    destruct H as [Hlen Hsub]. split; [exact Hlen|].
    split; [by apply (Forall_annotated _ kept') | discriminate].
  - simpl. split; [|split].
    + rewrite (Permutation_length Hkept). apply length_fmap.
    + apply (Forall_annotated _ kept'). by apply Permutation_submseteq.
    + by intros _.
Qed.

Lemma after_count_without_num_members
    (env : Environment) (request : Request) (qs : list Row) :
  after_count env (without "with_num_members" request) qs
  = after_count env request qs.
Proof.
  unfold after_count, filter_by_server_id.
  rewrite (without_lookup_ne _ "with_num_members" "by_serverid") by done.
  rewrite (without_lookup_ne _ "with_num_members" "qty") by done.
  reflexivity.
Qed.

(** With [with_num_members] true the pipeline ends as it ends without the
    parameter, on rows of the same number that carry the count. *)
Lemma annotation_alike
    (env : Environment) (objects : list Server) (request : Request) :
  query_params request !! "with_num_members" = Some "true" ->
  alike (fun rows rows' =>
           length rows = length rows' /\
           Forall (fun r => num_members r = Some (size (row_member r))) rows /\
           (provided (query_params request !! "qty") = None ->
            rows ≡ₚ annotated <$> rows'))
    (result (get_filtered_queryset env objects request))
    (result (get_filtered_queryset env objects
               (without "with_num_members" request))).
Proof.
  intros Hnum. rewrite !pipeline_stages.
  rewrite (without_lookup_ne _ "with_num_members" "by_user") by done.
  change (user (without "with_num_members" request)) with (user request).
  destruct (eq_str_true (query_params request !! "by_user")
            && negb (is_authenticated (user request))); [reflexivity|].
  rewrite !bind_pair_Return. cbn [result snd].
  rewrite after_count_without_num_members.
  apply after_count_alike.
  unfold counted.
  rewrite without_lookup_eq. apply eq_str_true_spec in Hnum. rewrite Hnum.
  cbn [eq_str_true].
  assert (narrowed env objects (without "with_num_members" request)
          = narrowed env objects request) as ->.
  { unfold narrowed.
    rewrite (without_lookup_ne _ "with_num_members" "category") by done.
    rewrite (without_lookup_ne _ "with_num_members" "by_user") by done.
    reflexivity. }
  apply annotate_num_members_annotated.
Qed.

(** [with_num_members=true] adds the count and changes nothing else: the
    request fails exactly as it fails without the parameter, and when it
    returns, the request without the parameter returns as many rows, and each
    row returned carries its [num_members].  Without [qty] the rows are those
    returned without the parameter, each annotated, in the order of the
    GROUP BY; with [qty] the limit cuts that order, so other rows may
    remain. *)
Theorem with_num_members_only_annotates
    (env : Environment) (objects : list Server) (request : Request) :
  query_params request !! "with_num_members" = Some "true" ->
  (forall e,
      result (get_filtered_queryset env objects request) = Raise e <->
      result (get_filtered_queryset env objects
                (without "with_num_members" request)) = Raise e) /\
  (forall rows,
      result (get_filtered_queryset env objects request) = Return rows ->
      exists rows',
        result (get_filtered_queryset env objects
                  (without "with_num_members" request)) = Return rows' /\
        length rows = length rows' /\
        Forall (fun r => num_members r = Some (size (row_member r))) rows /\
        (provided (query_params request !! "qty") = None ->
         rows ≡ₚ QuerySet.annotate_num_members env rows' /\
         (row_server <$> rows) ≡ₚ (row_server <$> rows'))).
Proof.
  intros Hnum. pose proof (annotation_alike env objects request Hnum) as H.
  destruct (result (get_filtered_queryset env objects request))
    as [rows | e |],
    (result (get_filtered_queryset env objects
               (without "with_num_members" request))) as [rows' | e' |];
    simpl in H; try done.
  - split; [intros e; split; discriminate|].
    intros ? [= <-]. destruct H as (Hlen & Hall & Hperm).
    exists rows'. split; [reflexivity|]. split; [exact Hlen|].
    split; [exact Hall|]. intros Hq. specialize (Hperm Hq). split.
    + by rewrite annotate_num_members_annotated.
    + rewrite Hperm, <- list_fmap_compose. reflexivity.
  - subst e'. split; [tauto | discriminate].
Qed.

Lemma with_num_members_only_annotates_witness :
  let request :=
    mkRequest (params [("with_num_members", "true"); ("category", "X")])
              AnonymousUser in
  exists rows rows',
    result (get_filtered_queryset sample_turned five_servers request)
    = Return rows /\
    result (get_filtered_queryset sample_turned five_servers
              (without "with_num_members" request)) = Return rows' /\
    rows ≡ₚ QuerySet.annotate_num_members sample_turned rows' /\
    (server_id ∘ row_server <$> rows') = [1; 3; 4] /\
    (server_id ∘ row_server <$> rows) = [4; 3; 1] /\
    (num_members <$> rows) = [Some 2%nat; Some 0%nat; Some 3%nat].
Proof.
  intros request.
  destruct (with_num_members_only_annotates sample_turned five_servers request
              eq_refl) as [_ Hrows].
  destruct (Hrows _ eq_refl) as (rows' & Hret' & _ & _ & Hperm).
  eexists. exists rows'. split; [reflexivity|]. split; [exact Hret'|].
  split; [exact (proj1 (Hperm eq_refl))|].
  assert (Hplain :
            result (get_filtered_queryset sample_turned five_servers
                      (without "with_num_members" request))
            = Return (QuerySet.filter_category_name "X"
                        (QuerySet.all five_servers))) by reflexivity.
  rewrite Hplain in Hret'. injection Hret' as <-.
  repeat split; reflexivity.
Defined.

Lemma num_members_without_by_user_witness :
  let request :=
    mkRequest (params [("with_num_members", "true"); ("category", "X")])
              (AuthenticatedUser 10) in
  exists rows,
    result (get_filtered_queryset sample five_servers request) = Return rows /\
    Forall (fun r => num_members r = Some (size (server_member (row_server r))))
      rows /\
    (num_members <$> rows) = [Some 3%nat; Some 0%nat; Some 2%nat].
Proof.
  intros request. eexists. split; [reflexivity|]. split; [|reflexivity].
  apply Forall_forall. intros r Hr.
  exact (num_members_without_by_user sample five_servers request _ r
           eq_refl eq_refl eq_refl Hr).
Defined.

Lemma num_members_with_by_user_witness :
  let request :=
    mkRequest (params [("with_num_members", "true"); ("by_user", "true")])
              (AuthenticatedUser 11) in
  exists rows,
    result (get_filtered_queryset sample five_servers request) = Return rows /\
    (server_id ∘ row_server <$> rows) = [1; 4] /\
    Forall (fun r => num_members r = Some 1%nat) rows.
Proof.
  intros request. eexists. split; [reflexivity|]. split; [reflexivity|].
  apply Forall_forall. intros r Hr.
  exact (num_members_with_by_user sample five_servers request _ r
           eq_refl eq_refl eq_refl Hr).
Defined.

(** ** Category, count and limit together *)

(** C2: the code breaks the claim when [by_user] comes with the three
    parameters.  The steps run in the order of the claim, but the count is
    taken behind the join of the by-user filter: on the sample table, for the
    caller 10 with [category="X"], [qty="1"] and [with_num_members=true], the
    one record returned is a server of category X with two or three members,
    annotated with 1. *)
Theorem category_count_limit_by_user (env : Environment) :
  int env "1" = Some 1 ->
  let request :=
    mkRequest (params [("category", "X"); ("by_user", "true");
                       ("with_num_members", "true"); ("qty", "1")])
              (AuthenticatedUser 10) in
  exists r,
    get_filtered_queryset env five_servers request
    = ([call_filter_category "X"; call_filter_member 10;
        call_annotate_num_members; call_int "1"; call_slice 1],
       Return [r]) /\
    r ∈ QuerySet.annotate_num_members env
          (QuerySet.filter_member env 10
             (QuerySet.filter_category_name "X" (QuerySet.all five_servers))) /\
    server_category (row_server r) = "X" /\
    num_members r = Some 1%nat /\
    (2 <= size (server_member (row_server r)))%nat.
Proof.
  intros Hint request.
  set (rows := QuerySet.annotate_num_members env
                 (QuerySet.filter_member env 10
                    (QuerySet.filter_category_name "X"
                       (QuerySet.all five_servers)))).
  assert (Hrun : get_filtered_queryset env five_servers request
                 = ([call_filter_category "X"; call_filter_member 10;
                     call_annotate_num_members; call_int "1"; call_slice 1],
                    Return (take 1 rows))).
  { rewrite pipeline_stages.
    change (eq_str_true (query_params request !! "by_user")
            && negb (is_authenticated (user request))) with false.
    cbv iota. rewrite bind_pair_Return.
    change (counted env five_servers request) with rows.
    unfold after_count.
    change (provided (query_params request !! "by_serverid"))
      with (@None string).
    change (provided (query_params request !! "qty")) with (Some "1").
    cbv iota. rewrite bind_ret.
    rewrite (limit_results_in_range env rows "1" 1 Hint)
      by (pose proof (max_limit_least env); lia).
    reflexivity. }
  assert (Hrows :
            rows ≡ₚ annotated
                      <$> ((fun r => mkRow (row_server r)
                                       (row_member r ∩ {[10]}) (num_members r))
                             <$> filter (fun r => 10 ∈ row_member r)
                                   (QuerySet.filter_category_name "X"
                                      (QuerySet.all five_servers)))).
  { unfold rows. rewrite annotate_num_members_annotated.
    apply fmap_Permutation, filter_member_perm. }
  destruct rows as [|r rest] eqn:Hlist.
  { apply Permutation_length in Hrows. discriminate Hrows. }
  exists r. split; [exact Hrun|].
  assert (Hr : r ∈ r :: rest) by apply list_elem_of_here.
  split; [exact Hr|].
  rewrite Hrows in Hr.
  apply list_elem_of_fmap in Hr as (r1 & -> & Hr).
  apply list_elem_of_fmap in Hr as (r0 & -> & Hr).
  apply list_elem_of_filter in Hr as [Hmem Hr].
  apply elem_of_filter_category_name in Hr as [Hcat Hr].
  apply list_elem_of_fmap in Hr as (s & -> & Hs).
  unfold five_servers in Hs.
  repeat (apply elem_of_cons in Hs as [-> | Hs]);
    try (by apply not_elem_of_nil in Hs);
    try discriminate Hcat;
    try (by apply not_elem_of_empty in Hmem);
    (split; [reflexivity | split; [reflexivity | vm_compute; lia]]).
Qed.

Lemma category_count_limit_by_user_witness :
  let request :=
    mkRequest (params [("category", "X"); ("by_user", "true");
                       ("with_num_members", "true"); ("qty", "1")])
              (AuthenticatedUser 10) in
  int sample "1" = Some 1 /\
  exists r,
    result (get_filtered_queryset sample five_servers request) = Return [r] /\
    server_id (row_server r) = 1 /\
    num_members r = Some 1%nat /\
    size (server_member (row_server r)) = 3%nat.
Proof.
  intros request. split; [reflexivity|].
  destruct (category_count_limit_by_user sample eq_refl)
    as (r & Hrun & _ & _ & Hnum & _).
  exists r.
  assert (Hret : result (get_filtered_queryset sample five_servers request)
                 = Return [r]) by (fold request in Hrun; by rewrite Hrun).
  split; [exact Hret|].
  assert (Hr : Return [r]
               = Return [mkRow (mkServer 1 "alpha" "X" {[ 10; 11; 12 ]})
                           ({[ 10; 11; 12 ]} ∩ {[ 10 ]}) (Some 1%nat)]).
  { rewrite <- Hret. reflexivity. }
  injection Hr as ->. repeat split; reflexivity.
Defined.

(** Without [by_user] the three steps do what C2 says.  With [category],
    [with_num_members=true] and a [qty] that [int] reads as an integer from 0
    to the largest LIMIT, and neither [by_user] nor [by_serverid], the run is
    the category filter, the annotation, [int] and the slice, in that order,
    and it returns the first [qty] of the annotated rows of the category.
    Up to the order of the GROUP BY these rows are the servers of the table
    with that category, each with the number of its members. *)
Theorem category_count_limit
    (env : Environment) (objects : list Server) (request : Request)
    (category qty : string) (n : Z) :
  provided (query_params request !! "category") = Some category ->
  query_params request !! "with_num_members" = Some "true" ->
  provided (query_params request !! "qty") = Some qty ->
  eq_str_true (query_params request !! "by_user") = false ->
  provided (query_params request !! "by_serverid") = None ->
  int env qty = Some n ->
  0 <= n <= max_limit env ->
  get_filtered_queryset env objects request
  = ([call_filter_category category; call_annotate_num_members;
      call_int qty; call_slice n],
     Return (take (Z.to_nat n)
               (QuerySet.annotate_num_members env
                  (QuerySet.filter_category_name category
                     (QuerySet.all objects))))) /\
  QuerySet.annotate_num_members env
    (QuerySet.filter_category_name category (QuerySet.all objects))
  ≡ₚ (fun s => mkRow s (server_member s) (Some (size (server_member s))))
       <$> filter (fun s => server_category s = category) objects.
Proof.
  intros Hcat Hnum%eq_str_true_spec Hqty Hby Hid Hint Hn. split.
  - rewrite pipeline_stages. rewrite Hby. cbn [andb].
    unfold category_call, by_user_call, annotate_call, counted, narrowed,
      after_count.
    rewrite Hcat, Hnum, Hby, Hid, Hqty.
    rewrite bind_pair_Return, bind_ret.
    rewrite (limit_results_in_range _ _ _ _ Hint Hn). reflexivity.
  - rewrite annotate_num_members_perm.
    unfold QuerySet.filter_category_name, QuerySet.all.
    rewrite (filter_fmap_iff _ _ (fun s => server_category s = category))
      by (intros; reflexivity).
    by rewrite <- list_fmap_compose.
Qed.

(** [category="X"], [qty="1"], [with_num_members=true] on the sample table,
    with a GROUP BY that turns the rows round: the last server of category X,
    with its two members counted. *)
Lemma category_count_limit_witness :
  let request :=
    mkRequest (params [("category", "X"); ("qty", "1");
                       ("with_num_members", "true")]) AnonymousUser in
  get_filtered_queryset sample_turned five_servers request
  = ([call_filter_category "X"; call_annotate_num_members;
      call_int "1"; call_slice 1],
     Return (take 1 (QuerySet.annotate_num_members sample_turned
                       (QuerySet.filter_category_name "X"
                          (QuerySet.all five_servers))))) /\
  (server_id ∘ row_server
     <$> take 1 (QuerySet.annotate_num_members sample_turned
                   (QuerySet.filter_category_name "X"
                      (QuerySet.all five_servers)))) = [4] /\
  (num_members
     <$> take 1 (QuerySet.annotate_num_members sample_turned
                   (QuerySet.filter_category_name "X"
                      (QuerySet.all five_servers)))) = [Some 2%nat].
Proof.
  intros request.
  split; [|split; reflexivity].
  apply (category_count_limit sample_turned five_servers request "X" "1" 1);
    try reflexivity.
  simpl. lia.
Defined.

Example splitext_samples :
  PosixPath.splitext "a.png" = ("a", ".png") /\
  PosixPath.splitext ".png" = (".png", "") /\
  PosixPath.splitext "a.tar.gz" = ("a.tar", ".gz") /\
  PosixPath.splitext "dir.d/file" = ("dir.d/file", "") /\
  PosixPath.splitext "..png" = ("..png", "") /\
  PosixPath.splitext "a." = ("a", ".") /\
  PosixPath.splitext "x/.hidden.txt" = ("x/.hidden", ".txt") /\
  PosixPath.splitext "" = ("", "").
Proof. repeat split; reflexivity. Qed.

Example validate_samples :
  validators.validate_image_file_extension "icons/Logo.PNG" = validators.Passes /\
  validators.validate_image_file_extension "photo.jpeg" = validators.Passes /\
  validators.validate_image_file_extension ".png"
  = validators.Fails "Unsupported file extension" /\
  validators.validate_image_file_extension "a.png/readme"
  = validators.Fails "Unsupported file extension" /\
  validators.validate_image_file_extension "x.bmp"
  = validators.Fails "Unsupported file extension".
Proof. repeat split; reflexivity. Qed.

Example page_size_samples :
  ServerListPagination.get_page_size sample
    (mkRequest (params [("page_size", "500")]) AnonymousUser) = 100 /\
  ServerListPagination.get_page_size sample
    (mkRequest (params [("page_size", "0")]) AnonymousUser) = 10 /\
  ServerListPagination.get_page_size sample
    (mkRequest (params [("page_size", "25")]) AnonymousUser) = 25 /\
  ServerListPagination.get_page_size sample
    (mkRequest (params []) AnonymousUser) = 10.
Proof. repeat split; reflexivity. Qed.

(** * [posixpath.splitext] and the file-extension validator *)

(** ** Strings *)

Section Strings.
Implicit Types (s t : string) (c d : ascii).

Lemma append_cons (a : ascii) s t : String a s +:+ t = String a (s +:+ t).
Proof. reflexivity. Qed.

Lemma append_nil_l t : "" +:+ t = t.
Proof. reflexivity. Qed.

Lemma append_nil_r s : s +:+ "" = s.
Proof.
  induction s as [|a s IH]; [reflexivity|]. by rewrite append_cons, IH.
Qed.

Lemma append_assoc s t u : (s +:+ t) +:+ u = s +:+ (t +:+ u).
Proof.
  induction s as [|a s IH]; [reflexivity|]. by rewrite !append_cons, IH.
Qed.

Lemma length_append s t :
  String.length (s +:+ t) = (String.length s + String.length t)%nat.
Proof.
  induction s as [|a s IH]; [reflexivity|].
  rewrite append_cons. cbn. by rewrite IH.
Qed.

Lemma slice_join (i : nat) s : Str.slice_to i s +:+ Str.slice_from i s = s.
Proof.
  revert s. induction i as [|i IH]; intros [|a s]; cbn; try reflexivity.
  by rewrite append_cons, IH.
Qed.

Lemma slice_to_append s t : Str.slice_to (String.length s) (s +:+ t) = s.
Proof.
  induction s as [|a s IH]; [reflexivity|].
  rewrite append_cons. cbn. by rewrite IH.
Qed.

Lemma slice_from_append s t : Str.slice_from (String.length s) (s +:+ t) = t.
Proof.
  induction s as [|a s IH]; [reflexivity|]. rewrite append_cons. exact IH.
Qed.

Lemma contains_append c s t :
  Str.contains c (s +:+ t) = Str.contains c s || Str.contains c t.
Proof.
  induction s as [|a s IH]; [reflexivity|].
  rewrite append_cons. cbn. by rewrite IH, orb_assoc.
Qed.

Lemma rfind_bounds c s : -1 <= Str.rfind c s < Z.of_nat (String.length s).
Proof.
  induction s as [|a s IH]; cbn; [lia|].
  destruct (0 <=? Str.rfind c s) eqn:E; [lia|].
  destruct (Ascii.eqb a c); lia.
Qed.

Lemma rfind_contains c s : 0 <= Str.rfind c s <-> Str.contains c s = true.
Proof.
  induction s as [|a s IH]; cbn; [split; [lia | discriminate]|].
  pose proof (rfind_bounds c s) as Hb.
  destruct (0 <=? Str.rfind c s) eqn:E.
  - apply Z.leb_le in E. rewrite (proj1 IH E), orb_true_r. split; [done | lia].
  - apply Z.leb_gt in E.
    assert (Str.contains c s = false) as ->.
    { destruct (Str.contains c s); [|reflexivity]. lia. }
    rewrite orb_false_r. destruct (Ascii.eqb a c); split; try done; lia.
Qed.

Lemma rfind_absent c s : Str.contains c s = false -> Str.rfind c s = -1.
Proof.
  intros H. pose proof (rfind_bounds c s). pose proof (rfind_contains c s).
  destruct (Z_lt_le_dec (Str.rfind c s) 0); [lia|].
  rewrite H in *. intuition discriminate.
Qed.

Lemma rfind_append_r c s t :
  Str.contains c t = true ->
  Str.rfind c (s +:+ t) = Z.of_nat (String.length s) + Str.rfind c t.
Proof.
  intros Ht. induction s as [|a s IH].
  - rewrite append_nil_l. cbn. lia.
  - rewrite append_cons. cbn -[Z.of_nat]. rewrite IH.
    apply rfind_contains in Ht.
    assert ((0 <=? Z.of_nat (String.length s) + Str.rfind c t) = true) as ->
      by (apply Z.leb_le; lia).
    lia.
Qed.

Lemma rfind_append_l c s t :
  Str.contains c t = false -> Str.rfind c (s +:+ t) = Str.rfind c s.
Proof.
  intros Ht. induction s as [|a s IH].
  - rewrite append_nil_l. by apply rfind_absent.
  - rewrite append_cons. cbn. by rewrite IH.
Qed.

(** At the index [rfind] gives stands the character, and none follows. *)
Lemma rfind_split c s :
  0 <= Str.rfind c s ->
  exists t, Str.slice_from (Z.to_nat (Str.rfind c s)) s = String c t /\
            Str.contains c t = false.
Proof.
  induction s as [|a s IH]; cbn; [lia|].
  pose proof (rfind_bounds c s) as Hb.
  destruct (0 <=? Str.rfind c s) eqn:E.
  - apply Z.leb_le in E. intros _.
    destruct (IH E) as (t & Ht & Hnone). exists t. split; [|exact Hnone].
    replace (Z.to_nat (Str.rfind c s + 1)) with (S (Z.to_nat (Str.rfind c s)))
      by lia.
    exact Ht.
  - apply Z.leb_gt in E. destruct (Ascii.eqb_spec a c) as [-> | Hne]; [|lia].
    intros _. exists s. split; [reflexivity|].
    destruct (Str.contains c s) eqn:Hc; [|reflexivity].
    apply rfind_contains in Hc. lia.
Qed.

Lemma length_slice_to (i : nat) s :
  (i <= String.length s)%nat -> String.length (Str.slice_to i s) = i.
Proof.
  revert s. induction i as [|i IH]; intros [|a s] Hlen; cbn in *; try lia.
  f_equal. apply IH. lia.
Qed.

Lemma slice_from_beyond (i : nat) s :
  (String.length s < i)%nat -> Str.slice_from i s = "".
Proof.
  revert s. induction i as [|i IH]; intros [|a s] Hlen; cbn in *; try lia;
    try reflexivity.
  apply IH. lia.
Qed.

(** Behind an index past the last [d] there is no [d]. *)
Lemma contains_slice_from d s (i : nat) :
  Str.rfind d s < Z.of_nat i -> Str.contains d (Str.slice_from i s) = false.
Proof.
  intros Hlt.
  destruct (le_lt_dec i (String.length s)) as [Hlen | Hgt];
    [|by rewrite slice_from_beyond].
  destruct (Str.contains d (Str.slice_from i s)) eqn:Hc; [|reflexivity].
  exfalso.
  pose proof (rfind_append_r d (Str.slice_to i s) _ Hc) as Hr.
  rewrite slice_join, (length_slice_to _ _ Hlen) in Hr.
  apply rfind_contains in Hc. lia.
Qed.

Lemma get_append (i : nat) s t :
  String.get (String.length s + i) (s +:+ t) = String.get i t.
Proof.
  induction s as [|a s IH]; [reflexivity|]. rewrite append_cons. exact IH.
Qed.

Lemma has_name_append s t (i n : nat) :
  PosixPath.has_name (s +:+ t) (String.length s + i) n
  = PosixPath.has_name t i n.
Proof.
  revert i. induction n as [|n IH]; intros i; cbn; [reflexivity|].
  rewrite get_append. rewrite <- (IH (S i)).
  by replace (S (String.length s + i)) with (String.length s + S i)%nat by lia.
Qed.

Lemma has_name_cons a s (i n : nat) :
  PosixPath.has_name (String a s) (S i) n = PosixPath.has_name s i n.
Proof.
  revert i. induction n as [|n IH]; intros i; cbn; [reflexivity|].
  destruct (String.get i s) as [c|]; [|reflexivity].
  destruct (Ascii.eqb c "."); [apply IH | reflexivity].
Qed.

(** Over a stem the loop finds a name exactly if the stem is not all dots. *)
Lemma has_name_stem s t :
  PosixPath.has_name (s +:+ t) 0 (String.length s) = negb (Str.only_dots s).
Proof.
  induction s as [|a s IH]; [reflexivity|].
  rewrite append_cons. cbn.
  destruct (Ascii.eqb a "."); [|reflexivity].
  rewrite has_name_cons. exact IH.
Qed.

End Strings.

Lemma rfind_dir (dir rest : string) :
  PosixPath.dir_prefix dir -> Str.contains "/" rest = false ->
  Str.rfind "/" (dir +:+ rest) + 1 = Z.of_nat (String.length dir).
Proof.
  intros Hdir Hrest. rewrite (rfind_append_l _ _ _ Hrest).
  destruct Hdir as [-> | [d ->]]; [reflexivity|].
  rewrite (rfind_append_r "/" d "/" eq_refl), length_append. cbn. lia.
Qed.

Lemma rfind_dot_dir (dir : string) :
  PosixPath.dir_prefix dir -> Str.rfind "." dir <= Str.rfind "/" dir.
Proof.
  intros [-> | [d ->]]; [reflexivity|].
  rewrite (rfind_append_l "." d "/" eq_refl).
  rewrite (rfind_append_r "/" d "/" eq_refl). cbn.
  pose proof (rfind_bounds "." d). lia.
Qed.

Lemma has_name_dots (s t : string) (n : nat) :
  Str.only_dots s = true -> (n <= String.length s)%nat ->
  PosixPath.has_name (s +:+ t) 0 n = false.
Proof.
  revert n. induction s as [|a s IH]; intros n Hdots Hn.
  - cbn in Hn. by replace n with 0%nat by lia.
  - cbn in Hdots. apply andb_true_iff in Hdots as [Ha Hs].
    destruct n as [|n]; [reflexivity|].
    rewrite append_cons. cbn. rewrite Ha, has_name_cons.
    apply IH; [exact Hs | cbn in Hn; lia].
Qed.

Lemma rfind_only_dots (s : string) :
  Str.only_dots s = true ->
  Str.rfind "." s = Z.of_nat (String.length s) - 1.
Proof.
  induction s as [|a s IH]; [reflexivity|]. cbn -[Z.of_nat].
  intros [Ha Hs]%andb_true_iff. rewrite (IH Hs), Ha.
  destruct s as [|b s]; [reflexivity|].
  assert ((0 <=? Z.of_nat (String.length (String b s)) - 1) = true) as ->
    by (apply Z.leb_le; cbn; lia).
  lia.
Qed.

(** ** [splitext] *)

(** Root and extension join back to the path. *)
Lemma splitext_join (p : string) :
  fst (PosixPath.splitext p) +:+ snd (PosixPath.splitext p) = p.
Proof.
  unfold PosixPath.splitext.
  destruct (_ && _); cbn [fst snd]; [apply slice_join | apply append_nil_r].
Qed.

(** The extension is empty, or it is a dot followed by characters that are
    neither dots nor slashes, and then the root is not empty. *)
Lemma splitext_extension_shape (p : string) :
  snd (PosixPath.splitext p) = "" \/
  exists t,
    snd (PosixPath.splitext p) = String "." t /\
    Str.contains "." t = false /\ Str.contains "/" t = false /\
    fst (PosixPath.splitext p) <> "".
Proof.
  unfold PosixPath.splitext.
  destruct ((Str.rfind "/" p <? Str.rfind "." p) && _) eqn:E;
    cbn [fst snd]; [right | by left].
  apply andb_true_iff in E as [Hlt Hname]. apply Z.ltb_lt in Hlt.
  pose proof (rfind_bounds "/" p) as Hsep.
  pose proof (rfind_bounds "." p) as Hdot.
  destruct (rfind_split "." p) as (t & Ht & Hnodot); [lia|].
  exists t. split; [exact Ht|]. split; [exact Hnodot|]. split.
  - assert (Hc : Str.contains "/"
                   (Str.slice_from (Z.to_nat (Str.rfind "." p)) p) = false)
      by (apply contains_slice_from; lia).
    rewrite Ht in Hc. cbn in Hc. exact Hc.
  - intros Hroot.
    assert (Hlen : String.length (Str.slice_to (Z.to_nat (Str.rfind "." p)) p)
                   = Z.to_nat (Str.rfind "." p))
      by (apply length_slice_to; lia).
    rewrite Hroot in Hlen. cbn in Hlen.
    assert (Hz : Str.rfind "." p = 0) by lia.
    assert (Hs : Str.rfind "/" p = -1) by lia.
    rewrite Hz, Hs in Hname. cbn in Hname. discriminate Hname.
Qed.

(** A file name with a stem that is not all dots, then a dot, then text
    without dot or slash, splits at that dot, whatever directory is before. *)
Lemma splitext_name (dir stem t : string) :
  PosixPath.dir_prefix dir ->
  Str.contains "/" stem = false ->
  Str.only_dots stem = false ->
  Str.contains "." t = false ->
  Str.contains "/" t = false ->
  PosixPath.splitext (dir +:+ stem +:+ String "." t)
  = (dir +:+ stem, String "." t).
Proof.
  intros Hdir Hstem Hdots Ht Hts.
  assert (Hrest : Str.contains "/" (stem +:+ String "." t) = false).
  { rewrite contains_append, Hstem. cbn. exact Hts. }
  pose proof (rfind_dir dir _ Hdir Hrest) as Hsep.
  assert (Hdot : Str.rfind "." (dir +:+ stem +:+ String "." t)
                 = Z.of_nat (String.length dir + String.length stem)).
  { rewrite <- append_assoc.
    rewrite (rfind_append_r "." (dir +:+ stem) (String "." t)) by reflexivity.
    rewrite length_append. cbn -[Z.of_nat]. rewrite (rfind_absent _ _ Ht).
    cbn. lia. }
  unfold PosixPath.splitext. rewrite Hdot.
  replace (Str.rfind "/" (dir +:+ stem +:+ String "." t))
    with (Z.of_nat (String.length dir) - 1) by lia.
  assert ((Z.of_nat (String.length dir) - 1
           <? Z.of_nat (String.length dir + String.length stem)) = true) as ->
    by (apply Z.ltb_lt; lia).
  replace (Z.to_nat (Z.of_nat (String.length dir) - 1 + 1))
    with (String.length dir + 0)%nat by lia.
  replace (Z.to_nat (Z.of_nat (String.length dir + String.length stem)
                     - (Z.of_nat (String.length dir) - 1 + 1)))
    with (String.length stem) by lia.
  rewrite has_name_append, has_name_stem, Hdots. cbn [andb negb].
  rewrite Nat2Z.id, <- length_append, <- append_assoc.
  by rewrite slice_to_append, slice_from_append.
Qed.

Example splitext_name_example :
  PosixPath.splitext "server/icons/logo.v2.PNG" = ("server/icons/logo.v2", ".PNG").
Proof.
  apply (splitext_name "server/icons/" "logo.v2" "PNG"); try reflexivity.
  right. by exists "server/icons".
Qed.

(** A file name made of dots, then text without dot or slash, has no
    extension: a name without a dot, a hidden file such as [.png]. *)
Lemma splitext_no_extension (dir dots t : string) :
  PosixPath.dir_prefix dir ->
  Str.only_dots dots = true ->
  Str.contains "." t = false ->
  Str.contains "/" t = false ->
  PosixPath.splitext (dir +:+ dots +:+ t) = (dir +:+ dots +:+ t, "").
Proof.
  intros Hdir Hdots Ht Hts.
  assert (Hslash : Str.contains "/" dots = false).
  { clear -Hdots. induction dots as [|a s IH]; [reflexivity|].
    cbn in *. apply andb_true_iff in Hdots as [Ha Hs].
    apply Ascii.eqb_eq in Ha as ->. cbn. by apply IH. }
  assert (Hrest : Str.contains "/" (dots +:+ t) = false)
    by (rewrite contains_append, Hslash; exact Hts).
  pose proof (rfind_dir dir _ Hdir Hrest) as Hsep.
  unfold PosixPath.splitext.
  destruct dots as [|a dots].
  - rewrite append_nil_l in *.
    rewrite (rfind_append_l "." dir t Ht).
    rewrite (rfind_append_l "/" dir t Hts).
    pose proof (rfind_dot_dir dir Hdir).
    assert ((Str.rfind "/" dir <? Str.rfind "." dir) = false) as ->
      by (apply Z.ltb_ge; lia).
    reflexivity.
  - assert (Hdot : Str.rfind "." (dir +:+ String a dots +:+ t)
                   = Z.of_nat (String.length dir)
                     + (Z.of_nat (String.length (String a dots)) - 1)).
    { rewrite rfind_append_r.
      - by rewrite (rfind_append_l "." _ t Ht), (rfind_only_dots _ Hdots).
      - rewrite contains_append. cbn in Hdots |- *.
        apply andb_true_iff in Hdots as [-> _]. reflexivity. }
    rewrite Hdot.
    replace (Z.to_nat (Str.rfind "/" (dir +:+ String a dots +:+ t) + 1))
      with (String.length dir + 0)%nat by lia.
    rewrite has_name_append.
    rewrite has_name_dots; [by rewrite andb_false_r | exact Hdots | lia].
Qed.

Example splitext_no_extension_example :
  PosixPath.splitext "icons/.png" = ("icons/.png", "") /\
  PosixPath.splitext "a.png/readme" = ("a.png/readme", "").
Proof.
  split.
  - apply (splitext_no_extension "icons/" "." "png"); try reflexivity.
    right. by exists "icons".
  - apply (splitext_no_extension "a.png/" "" "readme"); try reflexivity.
    right. by exists "a.png".
Qed.

(** ** [validate_image_file_extension] *)

(** Lowering moves no dot and no slash. *)
Lemma lower_char_eqb (a x : ascii) :
  x = "."%char \/ x = "/"%char ->
  Ascii.eqb (Str.lower_char a) x = Ascii.eqb a x.
Proof.
  intros [-> | ->];
    destruct a as [[] [] [] [] [] [] [] []]; vm_compute; reflexivity.
Qed.

Lemma contains_lower (x : ascii) (s : string) :
  x = "."%char \/ x = "/"%char ->
  Str.contains x (Str.lower s) = Str.contains x s.
Proof.
  intros Hx. induction s as [|a s IH]; [reflexivity|].
  cbn. by rewrite IH, (lower_char_eqb a x Hx).
Qed.

(** A string that lowers to a valid extension is a dot followed by text
    without dot or slash. *)
Lemma valid_extension_shape (ext : string) :
  Str.lower ext ∈ validators.valid_extensions ->
  exists t, ext = String "." t /\
            Str.contains "." t = false /\ Str.contains "/" t = false.
Proof.
  intros Hin.
  assert (Hshape : exists u, Str.lower ext = String "." u /\
                             Str.contains "." u = false /\
                             Str.contains "/" u = false).
  { unfold validators.valid_extensions in Hin.
    repeat (apply elem_of_cons in Hin as [-> | Hin];
            [eexists; repeat split; reflexivity|]).
    by apply not_elem_of_nil in Hin. }
  destruct Hshape as (u & Hu & Hdot & Hslash).
  destruct ext as [|a t]; [discriminate Hu|].
  cbn in Hu. injection Hu as Ha <-.
  exists t. split; [|split].
  - f_equal. apply Ascii.eqb_eq.
    rewrite <- (lower_char_eqb a "."), Ha by (by left). reflexivity.
  - rewrite <- (contains_lower "." t) by (by left). exact Hdot.
  - rewrite <- (contains_lower "/" t) by (by right). exact Hslash.
Qed.

(** Acceptance: a file name with a stem that is not all dots and one of the
    four extensions, in any mix of upper and lower case, passes, whatever
    directory is before. *)
Theorem image_extension_accepted (dir stem ext : string) :
  PosixPath.dir_prefix dir ->
  Str.contains "/" stem = false ->
  Str.only_dots stem = false ->
  Str.lower ext ∈ validators.valid_extensions ->
  validators.validate_image_file_extension (dir +:+ stem +:+ ext)
  = validators.Passes.
Proof.
  intros Hdir Hstem Hdots Hext.
  destruct (valid_extension_shape ext Hext) as (t & -> & Ht & Hts).
  unfold validators.validate_image_file_extension.
  rewrite (splitext_name dir stem t Hdir Hstem Hdots Ht Hts). cbn [snd].
  by rewrite bool_decide_eq_true_2.
Qed.

Lemma image_extension_accepted_witness :
  validators.validate_image_file_extension "server/icons/logo.v2.JpEg"
  = validators.Passes.
Proof.
  apply (image_extension_accepted "server/icons/" "logo.v2" ".JpEg");
    try reflexivity.
  - right. by exists "server/icons".
  - apply list_elem_of_further, list_elem_of_here.
Defined.

(** Soundness: a name that passes ends, after a root that is not empty, with
    an extension that lowers to one of the four. *)
Theorem image_extension_passes_inv (name : string) :
  validators.validate_image_file_extension name = validators.Passes ->
  exists root ext,
    name = root +:+ ext /\ root <> "" /\
    Str.lower ext ∈ validators.valid_extensions.
Proof.
  unfold validators.validate_image_file_extension.
  destruct (bool_decide _) eqn:E; [|discriminate]. intros _.
  apply bool_decide_eq_true in E.
  exists (fst (PosixPath.splitext name)), (snd (PosixPath.splitext name)).
  split; [symmetry; apply splitext_join|]. split; [|exact E].
  destruct (splitext_extension_shape name) as [Hempty | (t & _ & _ & _ & Hroot)];
    [|exact Hroot].
  rewrite Hempty in E. exfalso. revert E. unfold validators.valid_extensions.
  cbn. intros E.
  repeat (apply elem_of_cons in E as [E | E]; [discriminate E|]).
  by apply not_elem_of_nil in E.
Qed.

Lemma image_extension_passes_inv_witness :
  exists root ext,
    "Logo.PNG" = root +:+ ext /\ root <> "" /\
    Str.lower ext ∈ validators.valid_extensions.
Proof. apply image_extension_passes_inv. reflexivity. Defined.

(** Rejection: a file name without extension, or a hidden file whose name is
    an extension ([.png], [icons/.gif]), is refused with the message
    "Unsupported file extension". *)
Theorem image_extension_rejected (dir dots t : string) :
  PosixPath.dir_prefix dir ->
  Str.only_dots dots = true ->
  Str.contains "." t = false ->
  Str.contains "/" t = false ->
  validators.validate_image_file_extension (dir +:+ dots +:+ t)
  = validators.Fails "Unsupported file extension".
Proof.
  intros Hdir Hdots Ht Hts.
  unfold validators.validate_image_file_extension.
  rewrite (splitext_no_extension dir dots t Hdir Hdots Ht Hts). reflexivity.
Qed.

Lemma image_extension_rejected_witness :
  validators.validate_image_file_extension ".png"
  = validators.Fails "Unsupported file extension" /\
  validators.validate_image_file_extension "uploads.png/avatar"
  = validators.Fails "Unsupported file extension".
Proof.
  split.
  - apply (image_extension_rejected "" "." "png"); try reflexivity. by left.
  - apply (image_extension_rejected "uploads.png/" "" "avatar");
      try reflexivity.
    right. by exists "uploads.png".
Defined.

(** * The page size of [ServerListPagination] *)

(** The page size is never below 1 and never above [max_page_size]. *)
Theorem page_size_bounds (env : Environment) (request : Request) :
  1 <= ServerListPagination.get_page_size env request
    <= ServerListPagination.max_page_size.
Proof.
  unfold ServerListPagination.get_page_size, ServerListPagination.positive_int,
    ServerListPagination.max_page_size, ServerListPagination.page_size.
  destruct (query_params request !! _) as [raw|]; [|lia].
  destruct (int env raw) as [n|]; cbn; [|lia].
  destruct (n <? 0) eqn:Hneg; cbn; [lia|].
  destruct (n =? 0) eqn:Hzero; cbn; [lia|].
  apply Z.ltb_ge in Hneg. apply Z.eqb_neq in Hzero. lia.
Qed.

(** The page size a request gets: the default 10 when [page_size] is absent,
    when [int] refuses it, or when [int] reads zero or a negative integer
    from it; the integer itself from 1 to 100; 100 above. *)
Theorem page_size_cases (env : Environment) (request : Request) :
  (query_params request !! "page_size" = None ->
   ServerListPagination.get_page_size env request = 10) /\
  (forall raw,
      query_params request !! "page_size" = Some raw ->
      match int env raw with
      | None => ServerListPagination.get_page_size env request = 10
      | Some n =>
          (n <= 0 -> ServerListPagination.get_page_size env request = 10) /\
          (1 <= n <= 100 ->
           ServerListPagination.get_page_size env request = n) /\
          (100 < n -> ServerListPagination.get_page_size env request = 100)
      end).
Proof.
  unfold ServerListPagination.get_page_size, ServerListPagination.positive_int,
    ServerListPagination.max_page_size, ServerListPagination.page_size,
    ServerListPagination.page_size_query_param.
  split; [by intros ->|].
  intros raw ->. destruct (int env raw) as [n|]; cbn; [|reflexivity].
  destruct (n <? 0) eqn:Hneg; cbn.
  - apply Z.ltb_lt in Hneg. repeat split; intros; lia.
  - apply Z.ltb_ge in Hneg. destruct (n =? 0) eqn:Hzero; cbn.
    + apply Z.eqb_eq in Hzero. repeat split; intros; lia.
    + apply Z.eqb_neq in Hzero. repeat split; intros; lia.
Qed.
